(** * bfxr2-mcp: the sound-generation session of the MCP server

    A shallow embedding of [src/server.js] (the tool dispatcher) and of
    [src/bfxr-wrapper.js] (class [BfxrWrapper]), and the properties of the
    session they implement.

    Modelling conventions.
    - JavaScript numbers: a seed is an integer ([Z]).  The code computes
      on doubles, and the integer arithmetic of the model is the code's
      only where the doubles are exact: for the seeds of [exact_seed]
      below, [|seedValue| * 9301 + 49297 <= 2^53].  What is stated about
      the values of the seeded generator, or about a seed printed in a
      message, is stated for such seeds.  [%] is the truncating remainder
      [Z.rem].  Parameter values and the values returned by [Math.random]
      are rationals ([Q]).
    - [undefined] is [None].
    - The synthesis engine ([node_modules/bfxr2]) and the Node.js runtime
      ([fs], [path], [Buffer], number formatting) are interfaces: the
      classes [Bfxr] and [Host] below.
    - Effects: a state-and-exception monad [M] over the [World] made of
      the global [Math.random], the engine instance, the disk and the
      console. *)

From stdpp Require Import base option list strings gmap.
From Stdlib Require Import ZArith QArith Ascii String DecimalString Lia.

Local Open Scope string_scope.

(** ** JavaScript values and errors *)

(** An [Error] object, as far as the dispatcher looks at it. *)
Record JsError : Type := mkJsError { message : string; stack : string }.

(** How a call ends: [return] or [throw]. *)
Inductive Res (A : Type) : Type :=
| Return (a : A)
| Throw (e : JsError).
Arguments Return {A} a.
Arguments Throw {A} e.

Definition nl : string := String (ascii_of_nat 10) EmptyString.

(** Template-literal conversion [`${n}`] of an integer number: its decimal
    digits, which is what the code prints for an integer up to [2^53] in
    absolute value (beyond, the code prints the nearest double, in exponent
    form from [1e21] on). *)
Definition Z_to_string (n : Z) : string := NilZero.string_of_int (Z.to_int n).
Definition nat_to_string (n : nat) : string := NilZero.string_of_uint (Nat.to_uint n).

(** [`${v}`] of a value that is a string or [undefined]. *)
Definition tmpl (v : option string) : string :=
  match v with Some s => s | None => "undefined" end.

(** [s.includes(t)]. *)
Fixpoint includes (t s : string) : bool :=
  String.prefix t s ||
  match s with
  | EmptyString => false
  | String _ s' => includes t s'
  end.

(** [s.split(',')[1]]: the text between the first and the second comma,
    [undefined] when [s] has no comma. *)
Fixpoint upto_comma (s : string) : string :=
  match s with
  | EmptyString => EmptyString
  | String c s' => if Ascii.eqb c "," then EmptyString else String c (upto_comma s')
  end.

Fixpoint split_comma_1 (s : string) : option string :=
  match s with
  | EmptyString => None
  | String c s' => if Ascii.eqb c "," then Some (upto_comma s') else split_comma_1 s'
  end.

(** ** The random source *)

(** What [Math.random] is bound to: the runtime's own generator (a tape of
    values and a position on it), or the closure that [randomizeSound]
    installs, which captures [seedValue]. *)
Inductive Source : Type :=
| Ambient (tape : nat -> Q) (pos : nat)
| Seeded (seedValue : Z).

(** [seedValue = (seedValue * 9301 + 49297) % 233280], as the doubles
    compute it for a [seedValue] of [exact_seed] below; every state this
    gives is again such a value (lemma [lcg_next_exact]). *)
Definition lcg_next (seedValue : Z) : Z := Z.rem (seedValue * 9301 + 49297) 233280.

(** The seeds on which the doubles of the code compute the product and the
    sum of the recurrence without rounding: both are integers of at most
    [2^53] in absolute value. *)
Definition exact_seed (seedValue : Z) : Prop :=
  (Z.abs seedValue * 9301 + 49297 <= 2 ^ 53)%Z.

(** The [seed] argument, when given, is such a seed. *)
Definition exact_seed_argument (seed : option Z) : Prop :=
  match seed with
  | Some seedValue => exact_seed seedValue
  | None => True
  end.

(** One call [Math.random()]: the value returned and the source afterwards. *)
Definition Math_random_call (src : Source) : Q * Source :=
  match src with
  | Ambient tape pos => (tape pos, Ambient tape (S pos))
  | Seeded seedValue =>
      let seedValue' := lcg_next seedValue in
      (Qmake seedValue' 233280, Seeded seedValue')
  end.

(** The value of the [n]-th next call of [Math.random()], counting from 0. *)
Fixpoint nth_draw (n : nat) (src : Source) : Q :=
  match n with
  | O => fst (Math_random_call src)
  | S n' => nth_draw n' (snd (Math_random_call src))
  end.

(** A source that is the generator seeded with [seedValue], some draws on. *)
Definition seeded_from (seedValue : Z) (src : Source) : Prop :=
  exists n : nat, src = Seeded (Nat.iter n lcg_next seedValue).

(** Code that calls [Math.random()] some number of times and then finishes. *)
Inductive Rand (A : Type) : Type :=
| Done (a : A)
| Draw (k : Q -> Rand A).
Arguments Done {A} a.
Arguments Draw {A} k.

Fixpoint run_rand {A : Type} (p : Rand A) (src : Source) : A * Source :=
  match p with
  | Done a => (a, src)
  | Draw k => let (v, src') := Math_random_call src in run_rand (k v) src'
  end.

(** The number of [Math.random()] calls [p] makes when run on [src]. *)
Fixpoint draws {A : Type} (p : Rand A) (src : Source) : nat :=
  match p with
  | Done _ => O
  | Draw k => let (v, src') := Math_random_call src in S (draws (k v) src')
  end.

(** ** The synthesis engine and the runtime, as interfaces *)

(** A method of the engine object: it starts from the engine's state, may
    call [Math.random()], and returns or throws, leaving a new state. *)
Definition Method (E : Type) : Type := E -> Rand (Res unit * E).

(** The members of the [Bfxr] instance ([this.bfxr]) and of its sound
    object that the wrapper uses.  [sound] is [None] when [this.bfxr.sound]
    is falsy.  The value of [getBuffer()] is stored but never read. *)
Class Bfxr (E Snd : Type) : Type := {
  params : E -> gmap string Q;
  sound : E -> option Snd;
  reset_params : Method E;
  generate_pickup_coin : Method E;
  generate_laser_shoot : Method E;
  generate_explosion : Method E;
  generate_powerup : Method E;
  generate_hit_hurt : Method E;
  generate_jump : Method E;
  generate_blip_select : Method E;
  set_param : string -> Q -> Method E;
  randomize_params : Method E;
  generate_sound : Method E;
  getDataUri : Snd -> Res string;
  getBuffer : Snd -> Res unit
}.

(** What the code takes from Node.js: the stack text of a [new Error], the
    [TypeError] raised at a named site, [path.dirname], the [fs] calls on a
    disk [F], base64 decoding by [Buffer.from], and number formatting. *)
Class Host (F : Type) : Type := {
  Error_stack : string -> string;
  TypeError : string -> JsError;
  path_dirname : string -> string;
  fs_existsSync : string -> F -> bool;
  fs_mkdirSync : string -> F -> Res unit * F;
  fs_writeFileSync : string -> list Byte.byte -> F -> Res unit * F;
  Buffer_from_base64 : string -> list Byte.byte;
  toFixed2 : Q -> string;
  Number_toString : Q -> string
}.

Section Session.

Context {E Snd F : Type} `{!Bfxr E Snd} `{!Host F}.

(** ** The world and its monad *)

Record World : Type := mkWorld {
  Math_random : Source;
  bfxr : E;
  disk : F;
  console : list JsError
}.

Definition M (A : Type) : Type := World -> Res A * World.

Definition ret {A : Type} (a : A) : M A := fun w => (Return a, w).

Definition bind {A B : Type} (m : M A) (k : A -> M B) : M B :=
  fun w =>
    match m w with
    | (Return a, w') => k a w'
    | (Throw e, w') => (Throw e, w')
    end.

Definition throw {A : Type} (e : JsError) : M A := fun w => (Throw e, w).

Definition try_catch {A : Type} (body : M A) (handler : JsError -> M A) : M A :=
  fun w =>
    match body w with
    | (Return a, w') => (Return a, w')
    | (Throw e, w') => handler e w'
    end.

Definition gets {A : Type} (f : World -> A) : M A := fun w => (Return (f w), w).

Definition lift {A : Type} (r : Res A) : M A := fun w => (r, w).

Notation "'let*' x ':=' m 'in' k" := (bind m (fun x => k))
  (at level 10, x pattern, m at level 100, k at level 200).

(** [new Error(msg)] *)
Definition new_Error (msg : string) : JsError := mkJsError msg (Error_stack msg).

(** [this.bfxr.meth(...)] *)
Definition call (meth : Method E) : M unit :=
  fun w =>
    let '((r, e'), src') := run_rand (meth (bfxr w)) (Math_random w) in
    (r, mkWorld src' e' (disk w) (console w)).

(** [Math.random = function() {...}] *)
Definition set_Math_random (src : Source) : M unit :=
  fun w => (Return tt, mkWorld src (bfxr w) (disk w) (console w)).

(** [for (const [key, value] of entries) body(key, value)] *)
Fixpoint for_of (entries : list (string * Q)) (body : string -> Q -> M unit) : M unit :=
  match entries with
  | [] => ret tt
  | (key, value) :: rest => let* _ := body key value in for_of rest body
  end.

(** ** bfxr-wrapper.js: class BfxrWrapper *)

(** [Object.entries(obj)]: a [TypeError] when [obj] is [undefined]. *)
Definition Object_entries (obj : option (list (string * Q))) : M (list (string * Q)) :=
  match obj with
  | Some entries => ret entries
  | None => throw (TypeError "Object.entries")
  end.

(** The [switch (type)] of [generateSoundEffect]. *)
Definition preset_switch (type : option string) : M unit :=
  if decide (type = Some "pickup") then call generate_pickup_coin
  else if decide (type = Some "laser") then call generate_laser_shoot
  else if decide (type = Some "explosion") then call generate_explosion
  else if decide (type = Some "powerup") then call generate_powerup
  else if decide (type = Some "hit") then call generate_hit_hurt
  else if decide (type = Some "jump") then call generate_jump
  else if decide (type = Some "blip") then call generate_blip_select
  else throw (new_Error ("Unknown sound type: " ++ tmpl type)).

Definition generateSoundEffect (type : option string) (customParams : option (list (string * Q)))
  : M (option Snd) :=
  let customParams := default [] customParams in
  let* _ := call reset_params in
  let* _ := preset_switch type in
  let* _ := for_of customParams (fun key value => call (set_param key value)) in
  let* _ := call generate_sound in
  gets (fun w => sound (bfxr w)).

Definition createCustomSound (parameters : option (list (string * Q))) : M (option Snd) :=
  let* _ := call reset_params in
  let* entries := Object_entries parameters in
  let* _ := for_of entries (fun key value => call (set_param key value)) in
  let* _ := call generate_sound in
  gets (fun w => sound (bfxr w)).

Definition randomizeSound (seed : option Z) : M (option Snd) :=
  let* _ :=
    match seed with
    | Some seedValue => set_Math_random (Seeded seedValue)
    | None => ret tt
    end in
  let* _ := call randomize_params in
  let* _ := call generate_sound in
  gets (fun w => sound (bfxr w)).

(** What [randomizeSound] does once the seed is dealt with. *)
Definition randomize_and_render : M (option Snd) :=
  let* _ := call randomize_params in
  let* _ := call generate_sound in
  gets (fun w => sound (bfxr w)).

Record WavData : Type := mkWavData { dataUri : string; base64 : option string }.

Definition getWavData : M WavData :=
  let* s := gets (fun w => sound (bfxr w)) in
  match s with
  | None => throw (new_Error "No sound generated yet")
  | Some snd =>
      let* dataUri := lift (getDataUri snd) in
      let base64Data := split_comma_1 dataUri in
      let* _ := lift (getBuffer snd) in
      ret (mkWavData dataUri base64Data)
  end.

Definition getCurrentParameters : M (gmap string Q) :=
  gets (fun w => params (bfxr w)).

Record Preset : Type := mkPreset { name : string; description : string }.

Definition getPresets : list Preset :=
  [ mkPreset "pickup" "Pickup/Coin sounds";
    mkPreset "laser" "Laser/Shoot sounds";
    mkPreset "explosion" "Explosion sounds";
    mkPreset "powerup" "Powerup sounds";
    mkPreset "hit" "Hit/Hurt sounds";
    mkPreset "jump" "Jump sounds";
    mkPreset "blip" "UI/Select sounds" ].

(** The names of the presets, as values of [type]. *)
Definition preset_types : list (option string) := map (fun p => Some (name p)) getPresets.

(** ** server.js: saving the sound and dispatching tool calls *)

(** [fs.mkdirSync], [fs.writeFileSync]: calls that change the disk. *)
Definition fs_call (op : F -> Res unit * F) : M unit :=
  fun w =>
    let (r, d') := op (disk w) in
    (r, mkWorld (Math_random w) (bfxr w) d' (console w)).

(** [console.error("Detailed error:", error)] *)
Definition console_error (error : JsError) : M unit :=
  fun w => (Return tt, mkWorld (Math_random w) (bfxr w) (disk w) (error :: console w)).

Record SaveResult : Type := mkSaveResult { filePath : string; result_message : string }.

Definition saveWavFile (filePath : option string) (type : string) : M SaveResult :=
  let* wavData := getWavData in
  match filePath with
  | None => throw (TypeError "path.dirname")
  | Some filePath =>
      let dir := path_dirname filePath in
      let* present := gets (fun w => fs_existsSync dir (disk w)) in
      let* _ := if negb present then fs_call (fs_mkdirSync dir) else ret tt in
      match base64 wavData with
      | None => throw (TypeError "Buffer.from")
      | Some b64 =>
          let buffer := Buffer_from_base64 b64 in
          let* _ := fs_call (fs_writeFileSync filePath buffer) in
          ret (mkSaveResult filePath
                 ("Generated " ++ type ++ " sound!" ++ nl ++
                  "Saved to: " ++ filePath ++ nl ++
                  "File size: " ++ nat_to_string (List.length buffer) ++ " bytes"))
      end
  end.

(** The argument bag of a tool call; every property may be missing. *)
Record Args : Type := mkArgs {
  arg_type : option string;
  arg_customParams : option (list (string * Q));
  arg_parameters : option (list (string * Q));
  arg_seed : option Z;
  arg_filepath : option string
}.

(** The handler's result: [content[0].text] and the [isError] flag
    ([false] when the property is absent). *)
Record Response : Type := mkResponse { text : string; isError : bool }.

Definition content (t : string) : Response := mkResponse t false.

(** [const { ... } = args]: a [TypeError] when [args] is [undefined]. *)
Definition destructure (args : option Args) : M Args :=
  match args with
  | Some a => ret a
  | None => throw (TypeError "destructure args")
  end.

(** JavaScript truthiness of the seed in [seed ? ... : ...]. *)
Definition truthy (seed : option Z) : bool :=
  match seed with
  | Some n => negb (n =? 0)%Z
  | None => false
  end.

(** [`${v}`] of a number or [undefined]. *)
Definition tmpl_num (v : option Q) : string :=
  match v with Some q => Number_toString q | None => "undefined" end.

(** [v.toFixed(2)]: a [TypeError] when [v] is [undefined]. *)
Definition toFixed (v : option Q) : M string :=
  match v with
  | Some q => ret (toFixed2 q)
  | None => throw (TypeError "toFixed")
  end.

Definition get_parameters_text (params : gmap string Q) : M string :=
  let waveType := params !! "waveType" in
  let frequency := params !! "frequency_start" in
  let attack := params !! "attackTime" in
  let sustain := params !! "sustainTime" in
  let decay := params !! "decayTime" in
  let vibrato :=
    match params !! "vibratoDepth" with
    | Some d =>
        if negb (Qle_bool d 0)
        then tmpl_num (Some d) ++ " @ " ++ tmpl_num (params !! "vibratoSpeed")
        else "none"
    | None => "none"
    end in
  let slide :=
    match params !! "frequency_slide" with
    | Some s => if Qeq_bool s 0 then "none" else tmpl_num (Some s)
    | None => tmpl_num None
    end in
  let* f := toFixed frequency in
  let* a := toFixed attack in
  let* s := toFixed sustain in
  let* d := toFixed decay in
  ret ("Current sound parameters:" ++ nl ++
       "Wave: " ++ tmpl_num waveType ++ " | Freq: " ++ f ++ nl ++
       "Envelope: A" ++ a ++ " S" ++ s ++ " D" ++ d ++ nl ++
       "Vibrato: " ++ vibrato ++ " | Slide: " ++ slide).

Definition list_presets_text (presets : list Preset) : string :=
  "Available presets:" ++ nl ++
  String.concat nl (map (fun p => "â€¢ " ++ name p ++ ": " ++ description p) presets).

(** The [switch (name)] inside the [try]. *)
Definition tool_switch (name : string) (args : option Args) : M Response :=
  if decide (name = "generate_sound_effect") then
    let* a := destructure args in
    let* _ := generateSoundEffect (arg_type a) (Some (default [] (arg_customParams a))) in
    let* result := saveWavFile (arg_filepath a) (tmpl (arg_type a)) in
    ret (content (result_message result))
  else if decide (name = "create_custom_sound") then
    let* a := destructure args in
    let* _ := createCustomSound (arg_parameters a) in
    let* result := saveWavFile (arg_filepath a) "custom" in
    ret (content (result_message result))
  else if decide (name = "randomize_sound") then
    let* a := destructure args in
    let seed := arg_seed a in
    let* _ := randomizeSound seed in
    let* result :=
      saveWavFile (arg_filepath a)
        ("random" ++ (if truthy seed
                      then " (seed: " ++ Z_to_string (default 0%Z seed) ++ ")"
                      else "")) in
    ret (content (result_message result))
  else if decide (name = "export_wav") then
    let* a := destructure args in
    let* s := gets (fun w => sound (bfxr w)) in
    match s with
    | None => ret (content "No sound generated yet. Please generate a sound first.")
    | Some _ =>
        let* result := saveWavFile (arg_filepath a) "exported" in
        ret (content (result_message result))
    end
  else if decide (name = "get_parameters") then
    let* params := getCurrentParameters in
    let* t := get_parameters_text params in
    ret (content t)
  else if decide (name = "list_presets") then
    let presets := getPresets in
    ret (content (list_presets_text presets))
  else throw (new_Error ("Unknown tool: " ++ name)).

(** The [CallToolRequestSchema] handler: the [switch] in [try], and the
    [catch] that logs the error and answers with [isError: true]. *)
Definition CallTool (name : string) (args : option Args) : M Response :=
  try_catch (tool_switch name args)
    (fun error =>
       let* _ := console_error error in
       ret (mkResponse ("Error: " ++ message error ++ nl ++ "Stack: " ++ stack error) true)).

(** ** What the specification asks of a rejected request *)

(** The operation fails and the session is as before: neither the current
    sound nor the engine's parameter state has changed. *)
Definition fails_leaving_session_unchanged {A : Type} (op : M A) (w : World) : Prop :=
  (exists e, fst (op w) = Throw e) /\
  sound (bfxr (snd (op w))) = sound (bfxr w) /\
  params (bfxr (snd (op w))) = params (bfxr w).

(** The answer is an error response that carries the guidance. *)
Definition answers_generate_first (r : Res Response * World) : Prop :=
  exists resp, fst r = Return resp /\ isError resp = true /\
               includes "generate a sound first" (text resp) = true.



End Session.

(** ** The declared parameter ranges (server.js, the tools' inputSchema) *)

(** [create_custom_sound]: [parameters.properties], each with its
    [minimum] and [maximum]. *)
Definition parameters_schema : list (string * (Q * Q)) :=
  [ ("waveType", (0, 11));
    ("frequency_start", (0, 1));
    ("frequency_slide", (- (1 # 2), 1 # 2));
    ("attackTime", (0, 1));
    ("sustainTime", (0, 1));
    ("decayTime", (3 # 100, 1));
    ("vibratoDepth", (0, 1));
    ("vibratoSpeed", (0, 1)) ]%Q.

(** [generate_sound_effect]: [customParams.properties]. *)
Definition customParams_schema : list (string * (Q * Q)) :=
  [ ("waveType", (0, 11));
    ("frequency_start", (0, 1));
    ("attackTime", (0, 1));
    ("sustainTime", (0, 1));
    ("decayTime", (3 # 100, 1)) ]%Q.

Definition declared_range (schema : list (string * (Q * Q))) (key : string) : option (Q * Q) :=
  snd <$> List.find (fun entry => String.eqb (fst entry) key) schema.

(** A known parameter whose value is outside its declared range. *)
Definition out_of_range (schema : list (string * (Q * Q))) (key : string) (value : Q) : bool :=
  match declared_range schema key with
  | Some (lo, hi) => negb (Qle_bool lo value && Qle_bool value hi)
  | None => false
  end.

(** ** An engine and a runtime to run the session on *)

Module SpecEngine.

(** Modelled from the spec: the synthesis engine ([node_modules/bfxr2],
    not among the sources), as the Synthesis Engine Adapter of section 4.2
    describes it.  The state is the engine's parameter set and the last
    rendered sound; a sound handle is the parameter set it was rendered
    from.  The baseline and preset values are not given by the spec. *)
Record state : Type := mk { cur_params : gmap string Q; cur_sound : option (gmap string Q) }.

Definition error (kind detail : string) : JsError :=
  mkJsError (kind ++ ": " ++ detail) (kind ++ ": " ++ detail ++ nl ++ "    at Bfxr").

Definition baseline : gmap string Q :=
  list_to_map
    [ ("waveType", 0); ("frequency_start", 3 # 10); ("frequency_slide", 0);
      ("attackTime", 0); ("sustainTime", 3 # 10); ("decayTime", 4 # 10);
      ("vibratoDepth", 0); ("vibratoSpeed", 0) ]%Q.

(** Modelled from the spec: [resetToDefaults()] restores the parameter
    state to its baseline. *)
Definition resetToDefaults : Method state :=
  fun e => Done (Return tt, mk baseline (cur_sound e)).

Definition preset_table : list (string * list (string * Q)) :=
  [ ("pickup", [("waveType", 0); ("frequency_start", 6 # 10); ("decayTime", 2 # 10)]);
    ("laser", [("waveType", 1); ("frequency_start", 7 # 10); ("frequency_slide", - (3 # 10))]);
    ("explosion", [("waveType", 3); ("frequency_start", 1 # 10); ("decayTime", 6 # 10)]);
    ("powerup", [("waveType", 0); ("frequency_start", 4 # 10); ("frequency_slide", 2 # 10)]);
    ("hit", [("waveType", 3); ("frequency_start", 5 # 10); ("decayTime", 1 # 10)]);
    ("jump", [("waveType", 0); ("frequency_start", 4 # 10); ("frequency_slide", 3 # 10)]);
    ("blip", [("waveType", 0); ("frequency_start", 5 # 10); ("decayTime", 5 # 100)]) ]%Q.

(** Modelled from the spec: [applyPreset(tag)] initialises the parameter
    set by the preset's routine, and fails with [UnknownPresetError] if the
    tag is unrecognised. *)
Definition applyPreset (tag : string) : Method state :=
  fun e =>
    match List.find (fun entry => String.eqb (fst entry) tag) preset_table with
    | Some (_, values) =>
        Done (Return tt,
              mk (foldl (fun p kv => <[fst kv := snd kv]> p) (cur_params e) values) (cur_sound e))
    | None => Done (Throw (error "UnknownPresetError" tag), e)
    end.

(** Modelled from the spec: [setParameter(name, value)] fails with
    [UnsupportedParameterError] if the engine does not recognise the name;
    it checks no range. *)
Definition setParameter (name : string) (value : Q) : Method state :=
  fun e =>
    match baseline !! name with
    | Some _ => Done (Return tt, mk (<[name := value]> (cur_params e)) (cur_sound e))
    | None => Done (Throw (error "UnsupportedParameterError" name), e)
    end.

(** One [Math.random()] per parameter, in the order of the schema, each
    value scaled to the parameter's range. *)
Fixpoint draw_all {A : Type} (schema : list (string * (Q * Q))) (acc : gmap string Q)
    (k : gmap string Q -> Rand A) : Rand A :=
  match schema with
  | [] => k acc
  | (key, (lo, hi)) :: rest =>
      Draw (fun v => draw_all rest (<[key := (lo + v * (hi - lo))%Q]> acc) k)
  end.

(** Modelled from the spec: [randomizeAll()] randomises every parameter,
    consuming the random source in a fixed order. *)
Definition randomizeAll : Method state :=
  fun e => draw_all parameters_schema ∅ (fun p => Done (Return tt, mk p (cur_sound e))).

(** Modelled from the spec: [render()] fails with [RenderError] if the
    parameter state is inconsistent (decay below its floor), and otherwise
    produces the sound of the current parameter set. *)
Definition render : Method state :=
  fun e =>
    match cur_params e !! "decayTime" with
    | Some d =>
        if Qle_bool (3 # 100) d
        then Done (Return tt, mk (cur_params e) (Some (cur_params e)))
        else Done (Throw (error "RenderError" "decayTime below floor"), e)
    | None => Done (Throw (error "RenderError" "decayTime missing"), e)
    end.

(** Modelled from the spec: [encode(SoundHandle)] gives a self-contained
    payload, here the data URI of an empty RIFF header. *)
Definition encode (s : gmap string Q) : Res string :=
  Return "data:audio/wav;base64,UklGRg==".

#[global] Instance engine : Bfxr state (gmap string Q) := {
  params := cur_params;
  sound := cur_sound;
  reset_params := resetToDefaults;
  generate_pickup_coin := applyPreset "pickup";
  generate_laser_shoot := applyPreset "laser";
  generate_explosion := applyPreset "explosion";
  generate_powerup := applyPreset "powerup";
  generate_hit_hurt := applyPreset "hit";
  generate_jump := applyPreset "jump";
  generate_blip_select := applyPreset "blip";
  set_param := setParameter;
  randomize_params := randomizeAll;
  generate_sound := render;
  getDataUri := encode;
  getBuffer := fun _ => Return tt
}.

(** The engine as the constructor leaves it: no sound yet. *)
Definition initial : state := mk baseline None.

End SpecEngine.

Module TestHost.

(** An in-memory disk: the directories made and the files written. *)
Record disk : Type := mkDisk { dirs : list string; files : list (string * list Byte.byte) }.

Fixpoint dirname_aux (s : string) : option string :=
  match s with
  | EmptyString => None
  | String c s' =>
      match dirname_aux s' with
      | Some d => Some (String c d)
      | None => if Ascii.eqb c "/" then Some EmptyString else None
      end
  end.

Definition dirname (s : string) : string :=
  match dirname_aux s with
  | Some EmptyString => "/"
  | Some d => d
  | None => "."
  end.

(** A number printed as numerator/denominator. *)
Definition print_Q (q : Q) : string :=
  Z_to_string (Qnum q) ++ "/" ++ Z_to_string (Zpos (Qden q)).

(** A runtime whose [fs] calls never fail; the payload is kept undecoded,
    one byte per character. *)
#[global] Instance host : Host disk := {
  Error_stack := fun msg => "Error: " ++ msg ++ nl ++ "    at BfxrWrapper";
  TypeError := fun site => mkJsError ("TypeError in " ++ site) ("TypeError in " ++ site);
  path_dirname := dirname;
  fs_existsSync := fun dir d => bool_decide (dir ∈ dirs d);
  fs_mkdirSync := fun dir d => (Return tt, mkDisk (dir :: dirs d) (files d));
  fs_writeFileSync := fun path buffer d => (Return tt, mkDisk (dirs d) ((path, buffer) :: files d));
  Buffer_from_base64 := list_byte_of_string;
  toFixed2 := print_Q;
  Number_toString := print_Q
}.

Definition empty_disk : disk := mkDisk ["/"] [].

(** The runtime's own [Math.random]: a fixed tape of values in [0, 1). *)
Definition tape (n : nat) : Q := Qmake (Z.of_nat (n mod 7)) 7.

End TestHost.

(** The session at start-up (state Empty), and after a first custom sound
    (state Ready). *)
Definition world0 : World :=
  mkWorld (Ambient TestHost.tape 0) SpecEngine.initial TestHost.empty_disk [].

Definition world_ready : World :=
  snd (createCustomSound (Some [("decayTime", 1 # 2)%Q]) world0).

(** ** server.js: the tools announced by the ListTools handler *)

(** A tool as announced: its name, the properties of its [inputSchema] and
    the [required] ones (none when the schema has no [required]).  The
    descriptions are left out. *)
Record Tool : Type := mkTool {
  tool_name : string;
  tool_properties : list string;
  tool_required : list string
}.

Definition ListTools : list Tool :=
  [ mkTool "generate_sound_effect" ["type"; "customParams"; "filepath"] ["type"; "filepath"];
    mkTool "create_custom_sound" ["parameters"; "filepath"] ["parameters"; "filepath"];
    mkTool "randomize_sound" ["seed"; "filepath"] ["filepath"];
    mkTool "export_wav" ["filepath"] ["filepath"];
    mkTool "get_parameters" [] [];
    mkTool "list_presets" [] [] ].

(** [generate_sound_effect]: the [enum] of [type]. *)
Definition type_enum : list string :=
  ["pickup"; "laser"; "explosion"; "powerup"; "hit"; "jump"; "blip"].

(** ** bfxr-wrapper.js: setupGlobalMocks *)

(** [Math.max(a, b)] and [Math.min(a, b)] on numbers. *)
Definition Math_max (a b : Q) : Q := if Qle_bool a b then b else a.
Definition Math_min (a b : Q) : Q := if Qle_bool a b then a else b.

(** [Math.clamp = function(value, min, max)
      { return Math.max(min, Math.min(value, max)); }] *)
Definition Math_clamp (value min max : Q) : Q := Math_max min (Math_min value max).

(** ** The random source after some calls *)

(** The source after [n] calls of [Math.random()]. *)
Definition advance (n : nat) (src : Source) : Source :=
  Nat.iter n (fun s => snd (Math_random_call s)) src.

(** ** What an operation leaves alone *)

Section Frames.

Context {E Snd F : Type} `{!Bfxr E Snd} `{!Host F}.

(** The operation only calls [Math.random()]: it never replaces it. *)
Definition advances_source {A : Type} (m : @M E F A) : Prop :=
  forall w : @World E F,
    exists n : nat, Math_random (snd (m w)) = advance n (Math_random w).

(** The operation leaves the disk and the console as they are. *)
Definition keeps_disk {A : Type} (m : @M E F A) : Prop :=
  forall w : @World E F,
    disk (snd (m w)) = disk w /\ console (snd (m w)) = console w.

(** The operation leaves the engine, the random source and the console as
    they are. *)
Definition keeps_engine {A : Type} (m : @M E F A) : Prop :=
  forall w : @World E F,
    bfxr (snd (m w)) = bfxr w /\ Math_random (snd (m w)) = Math_random w /\
    console (snd (m w)) = console w.

End Frames.

(** * Properties *)

(** ** The seeded generator *)

Lemma run_rand_Seeded {A : Type} (p : Rand A) (seedValue : Z) :
  snd (run_rand p (Seeded seedValue)) =
  Seeded (Nat.iter (draws p (Seeded seedValue)) lcg_next seedValue).
Proof.
  revert seedValue.
  induction p as [a | k IH]; intros seedValue; simpl.
  - reflexivity.
  - rewrite IH. f_equal. rewrite <- Nat.iter_succ_r. reflexivity.
Qed.

Lemma nth_draw_Seeded (n : nat) (seedValue : Z) :
  nth_draw n (Seeded seedValue) = Qmake (Nat.iter (S n) lcg_next seedValue) 233280.
Proof.
  revert seedValue.
  induction n as [| n IH]; intros seedValue.
  - reflexivity.
  - cbn [nth_draw Math_random_call snd]. rewrite IH.
    f_equal. rewrite <- (Nat.iter_succ_r (S n)). reflexivity.
Qed.

(** On a state that is not negative, [%] is the remainder of the
    mathematical division, and the next state stays below the modulus. *)
Lemma lcg_next_nonneg (seedValue : Z) :
  (0 <= seedValue)%Z ->
  lcg_next seedValue = ((seedValue * 9301 + 49297) mod 233280)%Z /\
  (0 <= lcg_next seedValue < 233280)%Z.
Proof.
  intros Hs. unfold lcg_next.
  rewrite Z.rem_mod_nonneg by lia.
  split; [reflexivity |]. apply Z.mod_pos_bound. lia.
Qed.




Section Properties.

Context {E Snd F : Type} `{!Bfxr E Snd} `{!Host F}.

Local Abbreviation World := (@World E F).

Lemma seeded_from_iter (seedValue : Z) (n m : nat) :
  Nat.iter m lcg_next (Nat.iter n lcg_next seedValue) = Nat.iter (m + n) lcg_next seedValue.
Proof. symmetry. apply Nat.iter_add. Qed.

(** An engine call leaves a seeded generator a seeded generator. *)
Lemma call_seeded_from (meth : Method E) (seedValue : Z) (w : World) :
  seeded_from seedValue (Math_random w) ->
  seeded_from seedValue (Math_random (snd (call meth w))).
Proof.
  intros [n Hn]. unfold call. rewrite Hn.
  pose proof (run_rand_Seeded (meth (bfxr w)) (Nat.iter n lcg_next seedValue)) as Hrun.
  destruct (run_rand (meth (bfxr w)) (Seeded (Nat.iter n lcg_next seedValue)))
    as [[r e'] src'] eqn:Heq.
  simpl in *. rewrite Hrun, seeded_from_iter. eexists. reflexivity.
Qed.

Lemma randomizeSound_seeded (seedValue : Z) (w : World) :
  randomizeSound (Some seedValue) w =
  randomize_and_render (mkWorld (Seeded seedValue) (bfxr w) (disk w) (console w)).
Proof. reflexivity. Qed.

Lemma randomize_and_render_seeded_from (seedValue : Z) (w : World) :
  seeded_from seedValue (Math_random w) ->
  seeded_from seedValue (Math_random (snd (randomize_and_render w))).
Proof.
  intros Hw. unfold randomize_and_render, bind.
  pose proof (call_seeded_from randomize_params seedValue w Hw) as H1.
  destruct (call randomize_params w) as [[[] | e1] w1]; simpl in H1; [| exact H1].
  pose proof (call_seeded_from generate_sound seedValue w1 H1) as H2.
  destruct (call generate_sound w1) as [[[] | e2] w2]; simpl in H2; exact H2.
Qed.

(** C1 (as the code has it): a [randomizeSound] call that is given a seed
    installs the seeded generator and never puts the previous random source
    back.  Whether rendering returns or throws, [Math.random] is afterwards
    the generator seeded with [seedValue], advanced by the [n] draws the
    engine made, so the next [Math.random()] of any later operation returns
    the next value of the seeded sequence. *)
Theorem randomizeSound_leaves_seeded_generator (seedValue : Z) (w : World) :
  exists n : nat,
    Math_random (snd (randomizeSound (Some seedValue) w)) =
      Seeded (Nat.iter n lcg_next seedValue) /\
    nth_draw 0 (Math_random (snd (randomizeSound (Some seedValue) w))) =
      Qmake (Nat.iter (S n) lcg_next seedValue) 233280.
Proof.
  rewrite randomizeSound_seeded.
  destruct (randomize_and_render_seeded_from seedValue
              (mkWorld (Seeded seedValue) (bfxr w) (disk w) (console w))) as [n Hn].
  - exists 0%nat. reflexivity.
  - exists n. split; [exact Hn |]. rewrite Hn. reflexivity.
Qed.

(** The outcome of the two engine calls, the engine and the random source
    they leave depend on the engine and the random source alone. *)
Lemma randomize_and_render_frame (src : Source) (e : E) (d d' : F) (c c' : list JsError) :
  fst (randomize_and_render (mkWorld src e d c)) =
    fst (randomize_and_render (mkWorld src e d' c')) /\
  bfxr (snd (randomize_and_render (mkWorld src e d c))) =
    bfxr (snd (randomize_and_render (mkWorld src e d' c'))) /\
  Math_random (snd (randomize_and_render (mkWorld src e d c))) =
    Math_random (snd (randomize_and_render (mkWorld src e d' c'))).
Proof.
  unfold randomize_and_render, bind, call, gets. simpl.
  destruct (run_rand (randomize_params e) src) as [[[[] | e1] e'] src']; simpl;
    [| repeat split].
  destruct (run_rand (generate_sound e') src') as [[[[] | e2] e''] src'']; simpl;
    repeat split.
Qed.



(** C10: the seed [0] is falsy, yet [randomizeSound] installs the seeded
    generator for it as for any other number: the engine runs on
    [Seeded 0], whose first value is [49297 / 233280], and so the outcome,
    the engine state and the generator left behind are the same from any
    two worlds with the same engine state, whatever their random source. *)
Theorem randomizeSound_seed_zero_is_seeded
    (src1 src2 : Source) (e : E) (d1 d2 : F) (c1 c2 : list JsError) :
  truthy (Some 0%Z) = false /\
  randomizeSound (Some 0%Z) (mkWorld src1 e d1 c1) =
    randomize_and_render (mkWorld (Seeded 0) e d1 c1) /\
  nth_draw 0 (Seeded 0) = Qmake 49297 233280 /\
  fst (randomizeSound (Some 0%Z) (mkWorld src1 e d1 c1)) =
    fst (randomizeSound (Some 0%Z) (mkWorld src2 e d2 c2)) /\
  bfxr (snd (randomizeSound (Some 0%Z) (mkWorld src1 e d1 c1))) =
    bfxr (snd (randomizeSound (Some 0%Z) (mkWorld src2 e d2 c2))) /\
  Math_random (snd (randomizeSound (Some 0%Z) (mkWorld src1 e d1 c1))) =
    Math_random (snd (randomizeSound (Some 0%Z) (mkWorld src2 e d2 c2))).
Proof.
  split; [reflexivity |]. split; [reflexivity |]. split; [reflexivity |].
  rewrite !randomizeSound_seeded. simpl.
  apply randomize_and_render_frame.
Qed.

(** ** Generation requests *)

Local Notation "'let*' x ':=' m 'in' k" := (bind m (fun x => k))
  (at level 10, x pattern, m at level 100, k at level 200).

Lemma bind_Return {A B : Type} (m : M A) (k : A -> M B) (a : A) (w w' : World) :
  m w = (Return a, w') -> bind m k w = k a w'.
Proof. intros Hm. unfold bind. rewrite Hm. reflexivity. Qed.

Lemma bind_Throw {A B : Type} (m : M A) (k : A -> M B) (e : JsError) (w w' : World) :
  m w = (Throw e, w') -> bind m k w = (Throw e, w').
Proof. intros Hm. unfold bind. rewrite Hm. reflexivity. Qed.

Lemma for_of_app (pre post : list (string * Q)) (body : string -> Q -> M unit) (w : World) :
  for_of (pre ++ post) body w = (let* _ := for_of pre body in for_of post body) w.
Proof.
  revert w. induction pre as [| [key value] pre IH]; intros w.
  - reflexivity.
  - cbn [app for_of]. unfold bind.
    destruct (body key value w) as [[[] | e] w'].
    + exact (IH w').
    + reflexivity.
Qed.

(** The loop up to an entry, when the entries before it went through. *)
Lemma for_of_reaches (pre post : list (string * Q)) (key : string) (value : Q)
    (body : string -> Q -> M unit) (w w1 : World) :
  for_of pre body w = (Return tt, w1) ->
  for_of (pre ++ (key, value) :: post) body w =
  (let* _ := body key value in for_of post body) w1.
Proof.
  intros Hpre. rewrite for_of_app, (bind_Return _ _ tt _ _ Hpre). reflexivity.
Qed.

(** C3 (as the code has it): a generation request is not validated.  After
    [reset_params] (and, for a preset, the preset routine), every entry is
    handed in order to the engine's [set_param], whatever its value.  So for
    an entry [(key, value)] reached after the entries [pre]: if [set_param]
    throws, the operation fails with the engine's error in the world where
    [pre] is applied, and if it returns, the operation goes on to the
    remaining entries and to rendering with [value] set. *)
Theorem generation_hands_every_entry_to_set_param
    (type : option string) (pre post : list (string * Q)) (key : string) (value : Q)
    (w w0 w1 wp wp1 : World) :
  call reset_params w = (Return tt, w0) ->
  for_of pre (fun k v => call (set_param k v)) w0 = (Return tt, w1) ->
  preset_switch type w0 = (Return tt, wp) ->
  for_of pre (fun k v => call (set_param k v)) wp = (Return tt, wp1) ->
  createCustomSound (Some (pre ++ (key, value) :: post)%list) w =
    match call (set_param key value) w1 with
    | (Throw e, w2) => (Throw e, w2)
    | (Return _, w2) =>
        (let* _ := for_of post (fun k v => call (set_param k v)) in
         let* _ := call generate_sound in
         gets (fun w => sound (bfxr w))) w2
    end /\
  generateSoundEffect type (Some (pre ++ (key, value) :: post)%list) w =
    match call (set_param key value) wp1 with
    | (Throw e, w2) => (Throw e, w2)
    | (Return _, w2) =>
        (let* _ := for_of post (fun k v => call (set_param k v)) in
         let* _ := call generate_sound in
         gets (fun w => sound (bfxr w))) w2
    end.
Proof.
  intros Hreset Hpre Hpreset Hpre'. split.
  - unfold createCustomSound, Object_entries.
    rewrite (bind_Return _ _ tt _ _ Hreset).
    rewrite (bind_Return _ _ (pre ++ (key, value) :: post)%list w0 w0 eq_refl).
    unfold bind at 1. rewrite (for_of_reaches _ _ _ _ _ _ _ Hpre).
    unfold bind.
    destruct (call (set_param key value) w1) as [[[] | e] w2]; reflexivity.
  - unfold generateSoundEffect. simpl default.
    rewrite (bind_Return _ _ tt _ _ Hreset).
    rewrite (bind_Return _ _ tt _ _ Hpreset).
    unfold bind at 1. rewrite (for_of_reaches _ _ _ _ _ _ _ Hpre').
    unfold bind.
    destruct (call (set_param key value) wp1) as [[[] | e] w2]; reflexivity.
Qed.

Lemma preset_switch_unknown (type : option string) (w : World) :
  ~ In type preset_types ->
  preset_switch type w = (Throw (new_Error ("Unknown sound type: " ++ tmpl type)), w).
Proof.
  intros Hnot. unfold preset_switch.
  repeat match goal with
         | |- context [decide (type = Some ?s)] =>
             destruct (decide (type = Some s)) as [Heq | _];
             [exfalso; apply Hnot; rewrite Heq; simpl; tauto |]
         end.
  reflexivity.
Qed.

(** C6 (as the code has it): for a [type] that is none of the seven presets,
    [generateSoundEffect] throws [Error("Unknown sound type: " + type)], but
    only after [reset_params] has run: the failed call leaves the world that
    [reset_params] left, and calls no preset routine, no [set_param] and no
    rendering. *)
Theorem generateSoundEffect_unknown_type
    (type : option string) (customParams : option (list (string * Q))) (w w0 : World) :
  ~ In type preset_types ->
  call reset_params w = (Return tt, w0) ->
  generateSoundEffect type customParams w =
    (Throw (new_Error ("Unknown sound type: " ++ tmpl type)), w0).
Proof.
  intros Hnot Hreset. unfold generateSoundEffect.
  rewrite (bind_Return _ _ tt _ _ Hreset).
  apply bind_Throw, preset_switch_unknown, Hnot.
Qed.

(** ** The dispatcher *)

Lemma prefix_app (t s : string) : String.prefix t (t ++ s) = true.
Proof.
  induction t as [| c t IH]; simpl.
  - destruct s; reflexivity.
  - destruct (ascii_dec c c) as [_ | Hne]; [exact IH | contradiction].
Qed.

Lemma includes_app (t pre post : string) : includes t (pre ++ t ++ post) = true.
Proof.
  induction pre as [| c pre IH].
  - change (includes t (t ++ post) = true).
    pose proof (prefix_app t post) as Hpre.
    destruct (t ++ post); cbn [includes]; rewrite Hpre; reflexivity.
  - change (includes t (String c (pre ++ t ++ post)) = true).
    cbn [includes]. rewrite IH. apply orb_true_r.
Qed.

(** C5: whatever the tool name and the argument bag, the handler returns a
    response and never throws.  When the [switch] returns, its response is
    the handler's; when anything in it throws, the [catch] logs the error
    and answers with [isError: true] and the text
    ["Error: <message>\nStack: <stack>"], which carries the error's
    message. *)
Theorem CallTool_answers_every_error (name : string) (args : option Args) (w : World) :
  (exists resp w', CallTool name args w = (Return resp, w')) /\
  match tool_switch name args w with
  | (Return resp, w') => CallTool name args w = (Return resp, w')
  | (Throw error, w') =>
      exists resp,
        CallTool name args w =
          (Return resp,
           mkWorld (Math_random w') (bfxr w') (disk w') (error :: console w')) /\
        isError resp = true /\
        text resp = "Error: " ++ message error ++ nl ++ "Stack: " ++ stack error /\
        includes (message error) (text resp) = true
  end.
Proof.
  unfold CallTool, try_catch.
  destruct (tool_switch name args w) as [[resp | error] w'].
  - split; [exists resp, w' |]; reflexivity.
  - split; [eexists; eexists; reflexivity |].
    eexists. split; [reflexivity |]. split; [reflexivity |]. split; [reflexivity |].
    apply (includes_app (message error) "Error: ").
Qed.

(** C4 (as the code has it): with no sound generated yet, [export_wav]
    called with an argument bag writes nothing and answers with the
    guidance text, as an ordinary response: [isError] is not set. *)
Theorem export_wav_without_sound (a : Args) (w : World) :
  sound (bfxr w) = None ->
  CallTool "export_wav" (Some a) w =
    (Return (mkResponse "No sound generated yet. Please generate a sound first." false), w) /\
  includes "generate a sound first"
    "No sound generated yet. Please generate a sound first." = true.
Proof.
  intros Hempty. split; [| reflexivity].
  unfold CallTool, try_catch.
  change (tool_switch "export_wav" (Some a) w) with
    ((let* a := destructure (Some a) in
      let* s := gets (fun w => sound (bfxr w)) in
      match s with
      | None => ret (content "No sound generated yet. Please generate a sound first.")
      | Some _ =>
          let* result := saveWavFile (arg_filepath a) "exported" in
          ret (content (result_message result))
      end) w).
  unfold bind, destructure, ret, gets. rewrite Hempty. reflexivity.
Qed.




(** C9: [list_presets], in any world and with any arguments, leaves the
    world as it is and answers, without [isError], with the text of the
    seven presets, one line each; the text is the one built from
    [getPresets], which has exactly 7 entries, one for each of pickup,
    laser, explosion, powerup, hit, jump and blip, each with a non-empty
    name and description, the entry for laser being "Laser/Shoot sounds". *)
Theorem list_presets_seven_entries (args : option Args) (w : World) :
  CallTool "list_presets" args w =
    (Return
       (mkResponse
          ("Available presets:" ++ nl ++
           "â€¢ pickup: Pickup/Coin sounds" ++ nl ++
           "â€¢ laser: Laser/Shoot sounds" ++ nl ++
           "â€¢ explosion: Explosion sounds" ++ nl ++
           "â€¢ powerup: Powerup sounds" ++ nl ++
           "â€¢ hit: Hit/Hurt sounds" ++ nl ++
           "â€¢ jump: Jump sounds" ++ nl ++
           "â€¢ blip: UI/Select sounds")
          false),
     w) /\
  (exists resp,
     fst (CallTool "list_presets" args w) = Return resp /\
     isError resp = false /\
     text resp = list_presets_text getPresets /\
     forall p, In p getPresets ->
       includes (name p ++ ": " ++ description p) (text resp) = true) /\
  List.length getPresets = 7%nat /\
  map name getPresets = ["pickup"; "laser"; "explosion"; "powerup"; "hit"; "jump"; "blip"] /\
  NoDup (map name getPresets) /\
  In (mkPreset "laser" "Laser/Shoot sounds") getPresets /\
  Forall (fun p => name p <> "" /\ description p <> "") getPresets /\
  list_presets_text getPresets =
    "Available presets:" ++ nl ++
    "â€¢ pickup: Pickup/Coin sounds" ++ nl ++
    "â€¢ laser: Laser/Shoot sounds" ++ nl ++
    "â€¢ explosion: Explosion sounds" ++ nl ++
    "â€¢ powerup: Powerup sounds" ++ nl ++
    "â€¢ hit: Hit/Hurt sounds" ++ nl ++
    "â€¢ jump: Jump sounds" ++ nl ++
    "â€¢ blip: UI/Select sounds".
Proof.
  split; [reflexivity |].
  split.
  { eexists. split; [reflexivity |]. split; [reflexivity |]. split; [reflexivity |].
    intros p Hp. simpl in Hp.
    destruct Hp as [<- | [<- | [<- | [<- | [<- | [<- | [<- | []]]]]]]];
      vm_compute; reflexivity. }
  split; [reflexivity |]. split; [reflexivity |].
  split; [| split; [| split; [| reflexivity]]].
  - compute_done.
  - simpl. tauto.
  - repeat constructor; discriminate.
Qed.

(** ** The seed in the message of [randomize_sound] *)

(** A saved sound is announced under the label it was saved with. *)
Lemma saveWavFile_message (filePath : option string) (type : string)
    (w w' : World) (r : SaveResult) :
  saveWavFile filePath type w = (Return r, w') ->
  exists rest, result_message r = "Generated " ++ type ++ " sound!" ++ rest.
Proof.
  unfold saveWavFile, bind. intros H.
  destruct (getWavData w) as [[wavData | e] w1]; [| discriminate H].
  destruct filePath as [path |]; [| discriminate H].
  destruct (gets _ w1) as [[present | e] w2]; [| discriminate H].
  destruct ((if negb present then fs_call (fs_mkdirSync (path_dirname path)) else ret tt) w2)
    as [[[] | e] w3]; [| discriminate H].
  destruct (base64 wavData) as [b64 |]; [| discriminate H].
  destruct (fs_call _ w3) as [[[] | e] w4]; [| discriminate H].
  injection H as <- _. eexists. reflexivity.
Qed.

Lemma tool_switch_randomize_sound (a : Args) (w : World) :
  tool_switch "randomize_sound" (Some a) w =
  (let* _ := randomizeSound (arg_seed a) in
   let* result :=
     saveWavFile (arg_filepath a)
       ("random" ++ (if truthy (arg_seed a)
                     then " (seed: " ++ Z_to_string (default 0%Z (arg_seed a)) ++ ")"
                     else "")) in
   ret (content (result_message result))) w.
Proof. reflexivity. Qed.

(** X17: for a seed in the exact range, where [`${seed}`] prints the
    decimal digits of the seed, a seed other than 0 is echoed in the message
    of a successful [randomize_sound]; the seed 0, and no seed, give the
    plain label. *)
Lemma randomize_sound_message (a : Args) (w w' : World) (resp : Response) :
  exact_seed_argument (arg_seed a) ->
  tool_switch "randomize_sound" (Some a) w = (Return resp, w') ->
  exists rest,
    text resp =
      "Generated random" ++
      match arg_seed a with
      | Some 0%Z | None => ""
      | Some n => " (seed: " ++ Z_to_string n ++ ")"
      end ++ " sound!" ++ rest.
Proof.
  intros _. rewrite tool_switch_randomize_sound. unfold bind. intros H.
  destruct (randomizeSound (arg_seed a) w) as [[s | e] w1]; [| discriminate H].
  destruct (saveWavFile _ _ w1) as [[r | e] w2] eqn:Hsave; [| discriminate H].
  injection H as <- _.
  destruct (saveWavFile_message _ _ _ _ _ Hsave) as [rest Hrest].
  exists rest. simpl text. rewrite Hrest.
  destruct (arg_seed a) as [[| n | n] |]; reflexivity.
Qed.

End Properties.

(** * The session run on the engine of the specification *)

(** C1, counterexample: after [randomizeSound(1)] from the start-up world,
    whose random source is the runtime's, [Math.random] is not what it was
    before the call, and its next value is not the runtime's next value.
    The same holds for [randomizeSound(-6)], where rendering throws. *)
Lemma randomizeSound_does_not_restore_source :
  Math_random (snd (randomizeSound (Some 1%Z) world0)) <> Math_random world0 /\
  nth_draw 0 (Math_random (snd (randomizeSound (Some 1%Z) world0))) <>
    nth_draw 0 (Math_random world0) /\
  fst (randomizeSound (Some (-6)%Z) world0) =
    Throw (SpecEngine.error "RenderError" "decayTime below floor") /\
  Math_random (snd (randomizeSound (Some (-6)%Z) world0)) <> Math_random world0.
Proof.
  split; [| split; [| split]];
    try (intros H; vm_compute in H; discriminate H).
  vm_compute. reflexivity.
Qed.





(** C3, counterexample: in the Ready world, [createCustomSound] with
    [decayTime = 0] after [waveType = 3], and [generateSoundEffect("laser")]
    with the override [decayTime = 0], both out of the declared range, do
    not leave the session unchanged: the engine's parameters now hold the
    values of the request. *)
Lemma out_of_range_request_reaches_engine :
  out_of_range parameters_schema "decayTime" 0 = true /\
  ~ fails_leaving_session_unchanged
      (createCustomSound (Some [("waveType", 3); ("decayTime", 0)]%Q)) world_ready /\
  out_of_range customParams_schema "decayTime" 0 = true /\
  ~ fails_leaving_session_unchanged
      (generateSoundEffect (Some "laser") (Some [("decayTime", 0%Q)])) world_ready.
Proof.
  split; [reflexivity |]. split; [| split; [reflexivity |]].
  - intros (_ & _ & Hparams).
    apply (f_equal (fun p : gmap string Q => p !! "waveType")) in Hparams.
    vm_compute in Hparams. discriminate Hparams.
  - intros (_ & _ & Hparams).
    apply (f_equal (fun p : gmap string Q => p !! "decayTime")) in Hparams.
    vm_compute in Hparams. discriminate Hparams.
Qed.

(** C3, witness: in the Ready world, the entry [decayTime = 0] follows
    [waveType = 3]; [set_param] takes it, and the operation fails only when
    rendering does, with both values applied. *)
Lemma generation_hands_every_entry_witness :
  fst (createCustomSound (Some [("waveType", 3); ("decayTime", 0)]%Q) world_ready) =
    Throw (SpecEngine.error "RenderError" "decayTime below floor") /\
  params (bfxr (snd (createCustomSound (Some [("waveType", 3); ("decayTime", 0)]%Q)
                      world_ready))) !! "decayTime" = Some 0%Q /\
  params (bfxr (snd (generateSoundEffect (Some "laser")
                       (Some [("waveType", 3); ("decayTime", 0)]%Q)
                      world_ready))) !! "waveType" = Some 3%Q.
Proof.
  pose proof (generation_hands_every_entry_to_set_param
                (Some "laser") [("waveType", 3%Q)] [] "decayTime" 0%Q
                world_ready
                (snd (call reset_params world_ready))
                (snd (for_of [("waveType", 3%Q)] (fun k v => call (set_param k v))
                        (snd (call reset_params world_ready))))
                (snd (preset_switch (Some "laser") (snd (call reset_params world_ready))))
                (snd (for_of [("waveType", 3%Q)] (fun k v => call (set_param k v))
                        (snd (preset_switch (Some "laser")
                                (snd (call reset_params world_ready))))))) as Hthm.
  destruct Hthm as [Hcustom Hpreset]; [vm_compute; reflexivity .. |].
  simpl app in Hcustom, Hpreset. rewrite Hcustom, Hpreset.
  repeat split; vm_compute; reflexivity.
Defined.

(** C4, counterexample: at start-up, the answer of [export_wav] is not an
    error response, and the answer of [get_parameters] does not carry the
    guidance. *)
Lemma no_sound_is_not_an_error_response :
  ~ answers_generate_first
      (CallTool "export_wav" (Some (mkArgs None None None None (Some "/tmp/a.wav"))) world0) /\
  ~ answers_generate_first (CallTool "get_parameters" None world0).
Proof.
  split; intros (resp & Hresp & Herror & Htext).
  - vm_compute in Hresp. injection Hresp as <-. discriminate Herror.
  - vm_compute in Hresp. injection Hresp as <-. discriminate Herror.
Qed.

(** C4, witness: [export_wav] at start-up. *)
Lemma export_wav_without_sound_witness :
  CallTool "export_wav" (Some (mkArgs None None None None (Some "/tmp/a.wav"))) world0 =
    (Return (mkResponse "No sound generated yet. Please generate a sound first." false),
     world0).
Proof.
  exact (proj1 (export_wav_without_sound
                  (mkArgs None None None None (Some "/tmp/a.wav")) world0 eq_refl)).
Defined.

(** C6, counterexample: in the Ready world, the failed
    [generateSoundEffect("bogus")] has changed the engine's parameters. *)
Lemma unknown_type_resets_parameters :
  ~ In (Some "bogus") preset_types /\
  ~ fails_leaving_session_unchanged (generateSoundEffect (Some "bogus") None) world_ready.
Proof.
  split.
  - simpl. intuition discriminate.
  - intros (_ & _ & Hparams).
    apply (f_equal (fun p : gmap string Q => p !! "decayTime")) in Hparams.
    vm_compute in Hparams. discriminate Hparams.
Qed.

(** C6, witness: the type "bogus" in the Ready world. *)
Lemma generateSoundEffect_unknown_type_witness :
  generateSoundEffect (Some "bogus") None world_ready =
    (Throw (new_Error "Unknown sound type: bogus"), snd (call reset_params world_ready)).
Proof.
  apply (generateSoundEffect_unknown_type (Some "bogus") None world_ready).
  - simpl. intuition discriminate.
  - vm_compute. reflexivity.
Defined.


(** C8, at the failing input: [randomize_sound] with [seed: 0] at start-up
    succeeds, has run on the seeded generator, and its message does not
    mention the seed. *)
Theorem randomize_sound_seed_zero_not_echoed :
  fst (CallTool "randomize_sound"
         (Some (mkArgs None None None (Some 0%Z) (Some "/tmp/a.wav"))) world0) =
    Return (mkResponse ("Generated random sound!" ++ nl ++
                        "Saved to: /tmp/a.wav" ++ nl ++
                        "File size: 8 bytes") false) /\
  seeded_from 0
    (Math_random (snd (CallTool "randomize_sound"
                         (Some (mkArgs None None None (Some 0%Z) (Some "/tmp/a.wav")))
                         world0))) /\
  fst (CallTool "randomize_sound"
         (Some (mkArgs None None None (Some 5%Z) (Some "/tmp/a.wav"))) world0) =
    Return (mkResponse ("Generated random (seed: 5) sound!" ++ nl ++
                        "Saved to: /tmp/a.wav" ++ nl ++
                        "File size: 8 bytes") false).
Proof.
  split; [vm_compute; reflexivity |]. split; [| vm_compute; reflexivity].
  exists 8%nat. vm_compute. reflexivity.
Qed.

(** * Further properties of the code *)

(** ** The seeded generator and the range of [Math.random] *)

Lemma lcg_next_bound (seedValue : Z) : (- 233280 < lcg_next seedValue < 233280)%Z.
Proof.
  unfold lcg_next.
  destruct (Z.le_gt_cases 0 (seedValue * 9301 + 49297)) as [Hpos | Hneg].
  - pose proof (Z.rem_bound_pos_pos (seedValue * 9301 + 49297) 233280) as H. lia.
  - pose proof (Z.rem_bound_pos_neg (seedValue * 9301 + 49297) 233280) as H. lia.
Qed.

Lemma lcg_iter_nonneg (seedValue : Z) (n : nat) :
  (0 <= seedValue)%Z -> (0 <= Nat.iter n lcg_next seedValue)%Z.
Proof.
  intros Hs. induction n as [| n IH]; simpl; [exact Hs |].
  apply lcg_next_nonneg, IH.
Qed.

(** X1: for a seed in the exact range that is not negative, every value of
    the seeded generator lies in [0, 1), the range of [Math.random]. *)
Theorem seeded_values_in_unit_interval (seedValue : Z) (n : nat) :
  exact_seed seedValue ->
  (0 <= seedValue)%Z ->
  (0 <= nth_draw n (Seeded seedValue))%Q /\ (nth_draw n (Seeded seedValue) < 1)%Q.
Proof.
  intros _ Hs. rewrite nth_draw_Seeded.
  change (Nat.iter (S n) lcg_next seedValue)
    with (lcg_next (Nat.iter n lcg_next seedValue)).
  destruct (lcg_next_nonneg (Nat.iter n lcg_next seedValue)
              (lcg_iter_nonneg seedValue n Hs)) as [_ [Hlo Hhi]].
  unfold Qle, Qlt. simpl. lia.
Qed.

(** X1 at the seed 0, fourth value. *)
Lemma seeded_values_in_unit_interval_witness :
  exact_seed 0 /\
  (0 <= nth_draw 3 (Seeded 0))%Q /\ (nth_draw 3 (Seeded 0) < 1)%Q.
Proof.
  assert (Hexact : exact_seed 0) by (unfold exact_seed; vm_compute; discriminate).
  split; [exact Hexact |].
  apply (seeded_values_in_unit_interval 0 3 Hexact). lia.
Defined.

(** X2: for every seed in the exact range, every value of the seeded
    generator lies strictly between -1 and 1; and when the seed is -6 or
    less, the first value is not positive, outside the range of
    [Math.random] unless it is 0. *)
Theorem seeded_values_between_minus_one_and_one (seedValue : Z) :
  exact_seed seedValue ->
  (forall n : nat,
     (-1 < nth_draw n (Seeded seedValue))%Q /\ (nth_draw n (Seeded seedValue) < 1)%Q) /\
  ((seedValue <= -6)%Z -> (nth_draw 0 (Seeded seedValue) <= 0)%Q).
Proof.
  intros _. split.
  - intros n. rewrite nth_draw_Seeded.
    change (Nat.iter (S n) lcg_next seedValue)
      with (lcg_next (Nat.iter n lcg_next seedValue)).
    pose proof (lcg_next_bound (Nat.iter n lcg_next seedValue)) as Hb.
    unfold Qlt. simpl. lia.
  - intros Hs. rewrite nth_draw_Seeded. simpl Nat.iter. unfold lcg_next.
    assert (Hneg : (Z.rem (seedValue * 9301 + 49297) 233280 <= 0)%Z)
      by (apply Z.rem_bound_pos_neg; lia).
    unfold Qle. simpl. lia.
Qed.

(** X2 at the seed -6, whose first value is -6509 / 233280. *)
Lemma seeded_values_between_witness :
  exact_seed (-6) /\
  nth_draw 0 (Seeded (-6)) = Qmake (-6509) 233280 /\
  (-1 < nth_draw 0 (Seeded (-6)))%Q /\
  (nth_draw 0 (Seeded (-6)) <= 0)%Q.
Proof.
  assert (Hexact : exact_seed (-6)) by (unfold exact_seed; vm_compute; discriminate).
  destruct (seeded_values_between_minus_one_and_one (-6) Hexact) as [Hbounds Hfirst].
  split; [exact Hexact |]. split; [reflexivity |].
  split; [exact (proj1 (Hbounds 0%nat)) | apply Hfirst; lia].
Defined.

(** ** Math.clamp *)

Lemma Qle_bool_false (a b : Q) : Qle_bool a b = false -> (b < a)%Q.
Proof.
  intros H. apply Qnot_le_lt. intros Hle.
  apply Qle_bool_iff in Hle. congruence.
Qed.

(** X3: with [min <= max], [Math.clamp] returns a value between [min] and
    [max], and returns [value] itself when it already lies there. *)
Theorem Math_clamp_within_bounds (value min max : Q) :
  (min <= max)%Q ->
  (min <= Math_clamp value min max)%Q /\ (Math_clamp value min max <= max)%Q /\
  ((min <= value)%Q -> (value <= max)%Q -> Math_clamp value min max = value).
Proof.
  intros Hbounds. unfold Math_clamp, Math_min, Math_max.
  destruct (Qle_bool value max) eqn:Hvmax.
  - apply Qle_bool_iff in Hvmax.
    destruct (Qle_bool min value) eqn:Hminv.
    + apply Qle_bool_iff in Hminv. repeat split; auto.
    + apply Qle_bool_false in Hminv. repeat split.
      * apply Qle_refl.
      * exact Hbounds.
      * intros Hle _. exfalso. exact (Qlt_not_le _ _ Hminv Hle).
  - apply Qle_bool_false in Hvmax.
    destruct (Qle_bool min max) eqn:Hminmax.
    + repeat split.
      * exact Hbounds.
      * apply Qle_refl.
      * intros _ Hle. exfalso. exact (Qlt_not_le _ _ Hvmax Hle).
    + apply Qle_bool_false in Hminmax.
      exfalso. exact (Qlt_not_le _ _ Hminmax Hbounds).
Qed.

(** X3 at the bounds 0 and 1. *)
Lemma Math_clamp_within_bounds_witness :
  Math_clamp (3 # 2) 0 1 = 1%Q /\ Math_clamp (1 # 2) 0 1 = (1 # 2)%Q.
Proof.
  split; [reflexivity |].
  apply (Math_clamp_within_bounds (1 # 2) 0 1); unfold Qle; simpl; lia.
Defined.

(** X4: with the bounds the wrong way round, [max < min], [Math.clamp]
    returns [min] whatever the value. *)
Theorem Math_clamp_inverted_bounds (value min max : Q) :
  (max < min)%Q -> Math_clamp value min max = min.
Proof.
  intros Hinv. unfold Math_clamp, Math_min, Math_max.
  destruct (Qle_bool value max) eqn:Hvmax.
  - apply Qle_bool_iff in Hvmax.
    destruct (Qle_bool min value) eqn:Hminv; [| reflexivity].
    apply Qle_bool_iff in Hminv. exfalso.
    apply (Qlt_not_le _ _ Hinv). apply (Qle_trans _ value); assumption.
  - destruct (Qle_bool min max) eqn:Hminmax; [| reflexivity].
    apply Qle_bool_iff in Hminmax. exfalso. exact (Qlt_not_le _ _ Hinv Hminmax).
Qed.

(** X4 at the bounds 1 and 0. *)
Lemma Math_clamp_inverted_bounds_witness : Math_clamp (1 # 2) 1 0 = 1%Q.
Proof.
  apply (Math_clamp_inverted_bounds (1 # 2) 1 0). unfold Qlt. simpl. lia.
Defined.

(** ** The payload of a data URI *)

Lemma includes_comma_cons (c : ascii) (s : string) :
  includes "," (String c s) = false -> Ascii.eqb c "," = false /\ includes "," s = false.
Proof.
  cbn [includes]. intros H. apply orb_false_elim in H as [Hprefix Hrest].
  split; [| exact Hrest].
  destruct (Ascii.eqb_spec c ",") as [-> | Hne]; [| reflexivity].
  simpl in Hprefix. destruct s; discriminate Hprefix.
Qed.

Lemma upto_comma_stops (payload rest : string) :
  includes "," payload = false ->
  upto_comma payload = payload /\ upto_comma (payload ++ "," ++ rest) = payload.
Proof.
  induction payload as [| c payload IH]; intros Hno.
  - split; reflexivity.
  - apply includes_comma_cons in Hno as [Hc Hrest].
    change (String c payload ++ "," ++ rest) with (String c (payload ++ "," ++ rest)).
    cbn [upto_comma]. rewrite Hc.
    destruct (IH Hrest) as [-> ->]. split; reflexivity.
Qed.

(** X5: [dataUri.split(',')[1]] is the payload of a data URI: for a header
    and a payload without commas it gives back the payload, and it cuts a
    payload at its first comma; without any comma it is [undefined]. *)
Theorem split_comma_1_payload (header payload rest : string) :
  includes "," header = false ->
  includes "," payload = false ->
  split_comma_1 (header ++ "," ++ payload) = Some payload /\
  split_comma_1 (header ++ "," ++ payload ++ "," ++ rest) = Some payload /\
  split_comma_1 header = None.
Proof.
  intros Hheader Hpayload.
  induction header as [| c header IH].
  - destruct (upto_comma_stops payload rest Hpayload) as [H1 H2].
    change ("" ++ "," ++ payload) with (String "," payload).
    change ("" ++ "," ++ payload ++ "," ++ rest) with (String "," (payload ++ "," ++ rest)).
    cbn [split_comma_1]. rewrite Ascii.eqb_refl, H1, H2. repeat split.
  - apply includes_comma_cons in Hheader as [Hc Hrest].
    change (String c header ++ "," ++ payload)
      with (String c (header ++ "," ++ payload)).
    change (String c header ++ "," ++ payload ++ "," ++ rest)
      with (String c (header ++ "," ++ payload ++ "," ++ rest)).
    cbn [split_comma_1]. rewrite Hc. exact (IH Hrest).
Qed.

(** X5 at the data URI of an empty RIFF header. *)
Lemma split_comma_1_payload_witness :
  split_comma_1 "data:audio/wav;base64,UklGRg==" = Some "UklGRg==".
Proof.
  exact (proj1 (split_comma_1_payload "data:audio/wav;base64" "UklGRg==" ""
                  eq_refl eq_refl)).
Defined.

(** ** Frames of the monad's operations *)

Section MoreProperties.

Context {E Snd F : Type} `{!Bfxr E Snd} `{!Host F}.

Local Abbreviation World := (@World E F).
Local Abbreviation M := (@M E F).

Local Notation "'let*' x ':=' m 'in' k" := (bind m (fun x => k))
  (at level 10, x pattern, m at level 100, k at level 200).

Lemma advance_add (n m : nat) (src : Source) :
  advance m (advance n src) = advance (m + n) src.
Proof. unfold advance. symmetry. apply Nat.iter_add. Qed.

Lemma run_rand_advance {A : Type} (p : Rand A) (src : Source) :
  snd (run_rand p src) = advance (draws p src) src.
Proof.
  revert src. induction p as [a | k IH]; intros src; simpl.
  - reflexivity.
  - destruct (Math_random_call src) as [v src'] eqn:Hcall.
    rewrite IH. unfold advance. rewrite Nat.iter_succ_r, Hcall. reflexivity.
Qed.

Lemma advances_ret {A : Type} (a : A) : advances_source (ret a : M A).
Proof. intros w. exists 0%nat. reflexivity. Qed.

Lemma advances_throw {A : Type} (e : JsError) : advances_source (throw e : M A).
Proof. intros w. exists 0%nat. reflexivity. Qed.

Lemma advances_gets {A : Type} (f : World -> A) : advances_source (gets f : M A).
Proof. intros w. exists 0%nat. reflexivity. Qed.

Lemma advances_bind {A B : Type} (m : M A) (k : A -> M B) :
  advances_source m -> (forall a, advances_source (k a)) -> advances_source (bind m k).
Proof.
  intros Hm Hk w. unfold bind. destruct (Hm w) as [n Hn].
  destruct (m w) as [[a | e] w1]; simpl in Hn.
  - destruct (Hk a w1) as [n' Hn']. exists (n' + n)%nat.
    rewrite Hn', Hn. apply advance_add.
  - exists n. exact Hn.
Qed.

Lemma advances_call (meth : Method E) : advances_source (call meth : M unit).
Proof.
  intros w. unfold call.
  pose proof (run_rand_advance (meth (bfxr w)) (Math_random w)) as Hrun.
  destruct (run_rand (meth (bfxr w)) (Math_random w)) as [[r e'] src'].
  simpl in *. eexists. exact Hrun.
Qed.

Lemma advances_for_of (entries : list (string * Q)) (body : string -> Q -> M unit) :
  (forall key value, advances_source (body key value)) ->
  advances_source (for_of entries body).
Proof.
  intros Hbody. induction entries as [| [key value] rest IH]; cbn [for_of].
  - apply advances_ret.
  - apply advances_bind; [apply Hbody | intros _; exact IH].
Qed.

Lemma advances_preset_switch (type : option string) :
  advances_source (preset_switch type : M unit).
Proof.
  unfold preset_switch.
  repeat match goal with
         | |- context [decide ?P] => destruct (decide P) as [_ | _]; [apply advances_call |]
         end.
  apply advances_throw.
Qed.

(** X6: the operations other than a seeded [randomizeSound] never replace
    [Math.random]: after [generateSoundEffect], [createCustomSound] or
    [randomizeSound] without seed, returned or thrown, the random source
    is the one from before, advanced by the calls the engine made. *)
Theorem unseeded_operations_advance_source
    (type : option string) (customParams parameters : option (list (string * Q))) :
  advances_source (generateSoundEffect type customParams : M (option Snd)) /\
  advances_source (createCustomSound parameters : M (option Snd)) /\
  advances_source (randomizeSound None : M (option Snd)).
Proof.
  split; [| split].
  - unfold generateSoundEffect.
    apply advances_bind; [apply advances_call | intros _].
    apply advances_bind; [apply advances_preset_switch | intros _].
    apply advances_bind; [apply advances_for_of; intros; apply advances_call | intros _].
    apply advances_bind; [apply advances_call | intros _; apply advances_gets].
  - unfold createCustomSound.
    apply advances_bind; [apply advances_call | intros _].
    apply advances_bind.
    { destruct parameters; [apply advances_ret | apply advances_throw]. }
    intros entries.
    apply advances_bind; [apply advances_for_of; intros; apply advances_call | intros _].
    apply advances_bind; [apply advances_call | intros _; apply advances_gets].
  - unfold randomizeSound.
    apply advances_bind; [apply advances_ret | intros _].
    apply advances_bind; [apply advances_call | intros _].
    apply advances_bind; [apply advances_call | intros _; apply advances_gets].
Qed.

(** ** The disk and the console under the wrapper's operations *)

Lemma keeps_disk_ret {A : Type} (a : A) : keeps_disk (ret a : M A).
Proof. intros w. split; reflexivity. Qed.

Lemma keeps_disk_throw {A : Type} (e : JsError) : keeps_disk (throw e : M A).
Proof. intros w. split; reflexivity. Qed.

Lemma keeps_disk_gets {A : Type} (f : World -> A) : keeps_disk (gets f : M A).
Proof. intros w. split; reflexivity. Qed.

Lemma keeps_disk_bind {A B : Type} (m : M A) (k : A -> M B) :
  keeps_disk m -> (forall a, keeps_disk (k a)) -> keeps_disk (bind m k).
Proof.
  intros Hm Hk w. unfold bind. destruct (Hm w) as [Hd Hc].
  destruct (m w) as [[a | e] w1]; simpl in Hd, Hc.
  - destruct (Hk a w1) as [Hd' Hc']. rewrite Hd', Hc'. split; assumption.
  - split; assumption.
Qed.

Lemma keeps_disk_call (meth : Method E) : keeps_disk (call meth : M unit).
Proof.
  intros w. unfold call.
  destruct (run_rand (meth (bfxr w)) (Math_random w)) as [[r e'] src'].
  split; reflexivity.
Qed.

Lemma keeps_disk_for_of (entries : list (string * Q)) (body : string -> Q -> M unit) :
  (forall key value, keeps_disk (body key value)) -> keeps_disk (for_of entries body).
Proof.
  intros Hbody. induction entries as [| [key value] rest IH]; cbn [for_of].
  - apply keeps_disk_ret.
  - apply keeps_disk_bind; [apply Hbody | intros _; exact IH].
Qed.

Lemma keeps_disk_preset_switch (type : option string) :
  keeps_disk (preset_switch type : M unit).
Proof.
  unfold preset_switch.
  repeat match goal with
         | |- context [decide ?P] => destruct (decide P) as [_ | _]; [apply keeps_disk_call |]
         end.
  apply keeps_disk_throw.
Qed.

Lemma generateSoundEffect_keeps_disk
    (type : option string) (customParams : option (list (string * Q))) :
  keeps_disk (generateSoundEffect type customParams : M (option Snd)).
Proof.
  unfold generateSoundEffect.
  apply keeps_disk_bind; [apply keeps_disk_call | intros _].
  apply keeps_disk_bind; [apply keeps_disk_preset_switch | intros _].
  apply keeps_disk_bind; [apply keeps_disk_for_of; intros; apply keeps_disk_call | intros _].
  apply keeps_disk_bind; [apply keeps_disk_call | intros _; apply keeps_disk_gets].
Qed.

Lemma createCustomSound_keeps_disk (parameters : option (list (string * Q))) :
  keeps_disk (createCustomSound parameters : M (option Snd)).
Proof.
  unfold createCustomSound.
  apply keeps_disk_bind; [apply keeps_disk_call | intros _].
  apply keeps_disk_bind.
  { destruct parameters; [apply keeps_disk_ret | apply keeps_disk_throw]. }
  intros entries.
  apply keeps_disk_bind; [apply keeps_disk_for_of; intros; apply keeps_disk_call | intros _].
  apply keeps_disk_bind; [apply keeps_disk_call | intros _; apply keeps_disk_gets].
Qed.

Lemma randomizeSound_keeps_disk (seed : option Z) :
  keeps_disk (randomizeSound seed : M (option Snd)).
Proof.
  unfold randomizeSound.
  apply keeps_disk_bind.
  { destruct seed; [intros w; split; reflexivity | apply keeps_disk_ret]. }
  intros _.
  apply keeps_disk_bind; [apply keeps_disk_call | intros _].
  apply keeps_disk_bind; [apply keeps_disk_call | intros _; apply keeps_disk_gets].
Qed.

(** ** The engine under saving *)

Lemma keeps_engine_ret {A : Type} (a : A) : keeps_engine (ret a : M A).
Proof. intros w. repeat split. Qed.

Lemma keeps_engine_throw {A : Type} (e : JsError) : keeps_engine (throw e : M A).
Proof. intros w. repeat split. Qed.

Lemma keeps_engine_gets {A : Type} (f : World -> A) : keeps_engine (gets f : M A).
Proof. intros w. repeat split. Qed.

Lemma keeps_engine_lift {A : Type} (r : Res A) : keeps_engine (lift r : M A).
Proof. intros w. repeat split. Qed.

Lemma keeps_engine_bind {A B : Type} (m : M A) (k : A -> M B) :
  keeps_engine m -> (forall a, keeps_engine (k a)) -> keeps_engine (bind m k).
Proof.
  intros Hm Hk w. unfold bind. destruct (Hm w) as (He & Hr & Hc).
  destruct (m w) as [[a | e] w1]; simpl in He, Hr, Hc.
  - destruct (Hk a w1) as (He' & Hr' & Hc'). rewrite He', Hr', Hc'. repeat split; assumption.
  - repeat split; assumption.
Qed.

Lemma keeps_engine_fs_call (op : F -> Res unit * F) : keeps_engine (fs_call op : M unit).
Proof.
  intros w. unfold fs_call. destruct (op (disk w)) as [r d']. repeat split.
Qed.

Lemma getWavData_world (w : World) : snd (getWavData w) = w.
Proof.
  unfold getWavData, bind, gets, lift, ret, throw.
  destruct (sound (bfxr w)) as [s |]; [| reflexivity].
  destruct (getDataUri s) as [uri | e]; [| reflexivity].
  destruct (getBuffer s) as [[] | e]; reflexivity.
Qed.

Lemma keeps_engine_getWavData : keeps_engine (getWavData : M WavData).
Proof. intros w. rewrite getWavData_world. repeat split. Qed.

Lemma keeps_engine_saveWavFile (filePath : option string) (type : string) :
  keeps_engine (saveWavFile filePath type : M SaveResult).
Proof.
  unfold saveWavFile.
  apply keeps_engine_bind; [apply keeps_engine_getWavData | intros wavData].
  destruct filePath as [path |]; [| apply keeps_engine_throw].
  apply keeps_engine_bind; [apply keeps_engine_gets | intros present].
  apply keeps_engine_bind.
  { destruct (negb present); [apply keeps_engine_fs_call | apply keeps_engine_ret]. }
  intros _.
  destruct (base64 wavData) as [b64 |]; [| apply keeps_engine_throw].
  apply keeps_engine_bind; [apply keeps_engine_fs_call | intros _; apply keeps_engine_ret].
Qed.

(** The [catch] of the handler adds to the console and changes nothing else. *)
Lemma CallTool_world (name : string) (args : option Args) (w : World) :
  bfxr (snd (CallTool name args w)) = bfxr (snd (tool_switch name args w)) /\
  Math_random (snd (CallTool name args w)) = Math_random (snd (tool_switch name args w)) /\
  disk (snd (CallTool name args w)) = disk (snd (tool_switch name args w)).
Proof.
  unfold CallTool, try_catch.
  destruct (tool_switch name args w) as [[resp | e] w']; repeat split.
Qed.

(** What follows an operation, when it leaves the engine alone. *)
Lemma bind_then_keeps_engine {A B : Type} (m : M A) (k : A -> M B) (w : World) :
  (forall a, keeps_engine (k a)) ->
  bfxr (snd (bind m k w)) = bfxr (snd (m w)) /\
  Math_random (snd (bind m k w)) = Math_random (snd (m w)).
Proof.
  intros Hk. unfold bind. destruct (m w) as [[a | e] w1]; simpl.
  - destruct (Hk a w1) as (He & Hr & _). split; assumption.
  - split; reflexivity.
Qed.

Lemma tool_switch_generate_sound_effect (a : Args) (w : World) :
  tool_switch "generate_sound_effect" (Some a) w =
  (let* _ := generateSoundEffect (arg_type a) (Some (default [] (arg_customParams a))) in
   let* result := saveWavFile (arg_filepath a) (tmpl (arg_type a)) in
   ret (content (result_message result))) w.
Proof. reflexivity. Qed.

Lemma tool_switch_create_custom_sound (a : Args) (w : World) :
  tool_switch "create_custom_sound" (Some a) w =
  (let* _ := createCustomSound (arg_parameters a) in
   let* result := saveWavFile (arg_filepath a) "custom" in
   ret (content (result_message result))) w.
Proof. reflexivity. Qed.

Lemma tool_switch_export_wav (args : option Args) (w : World) :
  tool_switch "export_wav" args w =
  (let* a := destructure args in
   let* s := gets (fun w => sound (bfxr w)) in
   match s with
   | None => ret (content "No sound generated yet. Please generate a sound first.")
   | Some _ =>
       let* result := saveWavFile (arg_filepath a) "exported" in
       ret (content (result_message result))
   end) w.
Proof. reflexivity. Qed.

Lemma generateSoundEffect_default (type : option string)
    (customParams : option (list (string * Q))) :
  generateSoundEffect type (Some (default [] customParams)) =
  (generateSoundEffect type customParams : M (option Snd)).
Proof. destruct customParams; reflexivity. Qed.

Lemma keeps_engine_save_and_answer (filePath : option string) (type : string) :
  keeps_engine (let* result := saveWavFile filePath type in
                ret (content (result_message result)) : M Response).
Proof.
  apply keeps_engine_bind; [apply keeps_engine_saveWavFile | intros r; apply keeps_engine_ret].
Qed.

(** X7: [export_wav] never changes the session: whatever the arguments and
    the outcome, the engine (with its current sound and parameters) and the
    random source are afterwards as before. *)
Theorem export_wav_keeps_engine (args : option Args) (w : World) :
  bfxr (snd (CallTool "export_wav" args w)) = bfxr w /\
  Math_random (snd (CallTool "export_wav" args w)) = Math_random w.
Proof.
  destruct (CallTool_world "export_wav" args w) as (-> & -> & _).
  rewrite tool_switch_export_wav.
  assert (Hkeeps : keeps_engine
            (let* a := destructure args in
             let* s := gets (fun w => sound (bfxr w)) in
             match s with
             | None => ret (content "No sound generated yet. Please generate a sound first.")
             | Some _ =>
                 let* result := saveWavFile (arg_filepath a) "exported" in
                 ret (content (result_message result))
             end : M Response)).
  { apply keeps_engine_bind.
    { destruct args; [apply keeps_engine_ret | apply keeps_engine_throw]. }
    intros a. apply keeps_engine_bind; [apply keeps_engine_gets | intros [s |]].
    - apply keeps_engine_save_and_answer.
    - apply keeps_engine_ret. }
  destruct (Hkeeps w) as (He & Hr & _). split; assumption.
Qed.

(** X8: a generating tool changes the engine and the random source exactly
    as the wrapper's operation does; saving the file afterwards changes
    neither, so a sound that was generated stays the current sound also
    when saving it fails. *)
Theorem generating_tools_engine_effect (a : Args) (w : World) :
  (bfxr (snd (CallTool "generate_sound_effect" (Some a) w)) =
     bfxr (snd (generateSoundEffect (arg_type a) (arg_customParams a) w)) /\
   Math_random (snd (CallTool "generate_sound_effect" (Some a) w)) =
     Math_random (snd (generateSoundEffect (arg_type a) (arg_customParams a) w))) /\
  (bfxr (snd (CallTool "create_custom_sound" (Some a) w)) =
     bfxr (snd (createCustomSound (arg_parameters a) w)) /\
   Math_random (snd (CallTool "create_custom_sound" (Some a) w)) =
     Math_random (snd (createCustomSound (arg_parameters a) w))) /\
  (bfxr (snd (CallTool "randomize_sound" (Some a) w)) =
     bfxr (snd (randomizeSound (arg_seed a) w)) /\
   Math_random (snd (CallTool "randomize_sound" (Some a) w)) =
     Math_random (snd (randomizeSound (arg_seed a) w))).
Proof.
  split; [| split].
  - destruct (CallTool_world "generate_sound_effect" (Some a) w) as (-> & -> & _).
    rewrite tool_switch_generate_sound_effect, generateSoundEffect_default.
    apply (bind_then_keeps_engine (generateSoundEffect (arg_type a) (arg_customParams a))).
    intros _. apply keeps_engine_save_and_answer.
  - destruct (CallTool_world "create_custom_sound" (Some a) w) as (-> & -> & _).
    rewrite tool_switch_create_custom_sound.
    apply (bind_then_keeps_engine (createCustomSound (arg_parameters a))).
    intros _. apply keeps_engine_save_and_answer.
  - destruct (CallTool_world "randomize_sound" (Some a) w) as (-> & -> & _).
    rewrite tool_switch_randomize_sound.
    apply (bind_then_keeps_engine (randomizeSound (arg_seed a))).
    intros _. apply keeps_engine_save_and_answer.
Qed.

(** ** Saving *)

Lemma saveWavFile_without_path (type : string) (w : World) :
  exists e, saveWavFile None type w = (Throw e, w).
Proof.
  unfold saveWavFile, bind. pose proof (getWavData_world w) as Hw.
  destruct (getWavData w) as [[wavData | e] w1]; simpl in Hw; subst w1;
    eexists; reflexivity.
Qed.

(** X9: when [saveWavFile] returns, there was a current sound whose data
    URI has a payload after its first comma; the file path is the one
    asked for, the bytes handed to [fs.writeFileSync] are the decoded
    payload, written after the directory was made if it was missing, and
    the size in the message is the number of those bytes. *)
Theorem saveWavFile_reports_what_it_writes
    (target : option string) (type : string) (w w' : World) (r : SaveResult) :
  saveWavFile target type w = (Return r, w') ->
  exists (s : Snd) (uri b64 path : string),
    target = Some path /\
    sound (bfxr w) = Some s /\
    getDataUri s = Return uri /\
    split_comma_1 uri = Some b64 /\
    filePath r = path /\
    result_message r =
      "Generated " ++ type ++ " sound!" ++ nl ++
      "Saved to: " ++ path ++ nl ++
      "File size: " ++ nat_to_string (List.length (Buffer_from_base64 b64)) ++ " bytes" /\
    fs_writeFileSync path (Buffer_from_base64 b64)
      (if fs_existsSync (path_dirname path) (disk w)
       then disk w
       else snd (fs_mkdirSync (path_dirname path) (disk w))) =
    (Return tt, disk w').
Proof.
  intros H.
  unfold saveWavFile, getWavData, bind, gets, lift, ret, throw, fs_call in H.
  destruct (sound (bfxr w)) as [s |] eqn:Hsound; [| discriminate H].
  destruct (getDataUri s) as [uri | e] eqn:Huri; [| discriminate H].
  destruct (getBuffer s) as [[] | e]; [| discriminate H].
  destruct target as [path |]; [| discriminate H].
  cbn [base64 disk Math_random bfxr console] in H.
  destruct (split_comma_1 uri) as [b64 |] eqn:Hsplit.
  - exists s, uri, b64, path.
    destruct (fs_existsSync (path_dirname path) (disk w)) eqn:Hpresent;
      cbn [negb] in H.
    + cbn [disk Math_random bfxr console] in H.
      destruct (fs_writeFileSync path (Buffer_from_base64 b64) (disk w))
        as [[[] | e] d'] eqn:Hwrite; [| discriminate H].
      injection H as <- <-. repeat split; first [reflexivity | assumption].
    + destruct (fs_mkdirSync (path_dirname path) (disk w)) as [[[] | e] d1] eqn:Hmkdir;
        [| discriminate H].
      cbn [disk Math_random bfxr console snd] in H |- *.
      destruct (fs_writeFileSync path (Buffer_from_base64 b64) d1)
        as [[[] | e] d'] eqn:Hwrite; [| discriminate H].
      injection H as <- <-. repeat split; first [reflexivity | assumption].
  - exfalso.
    destruct (negb (fs_existsSync (path_dirname path) (disk w))).
    + destruct (fs_mkdirSync (path_dirname path) (disk w)) as [[[] | e] d1];
        discriminate H.
    + discriminate H.
Qed.

(** X10: without a current sound, or without a file path, [saveWavFile]
    throws and leaves the world untouched: no directory is made and nothing
    is written; without a current sound the error is
    ["No sound generated yet"]. *)
Theorem saveWavFile_fails_before_writing
    (target : option string) (type : string) (w : World) :
  sound (bfxr w) = None \/ target = None ->
  snd (saveWavFile target type w) = w /\
  (exists e, fst (saveWavFile target type w) = Throw e) /\
  (sound (bfxr w) = None ->
   fst (saveWavFile target type w) = Throw (new_Error "No sound generated yet")).
Proof.
  intros [Hsound | ->].
  - unfold saveWavFile, getWavData, bind, gets, throw. rewrite Hsound.
    split; [reflexivity |]. split; [eexists |]; reflexivity.
  - destruct (saveWavFile_without_path type w) as [e He]. rewrite He.
    split; [reflexivity |]. split; [exists e; reflexivity |].
    intros Hsound. revert He.
    unfold saveWavFile, getWavData, bind, gets, throw. rewrite Hsound.
    intros He. injection He as <-. reflexivity.
Qed.

Lemma tool_without_filepath {A : Type} (generate : M A) (type : string) (w : World) :
  keeps_disk generate ->
  exists e w',
    (let* _ := generate in
     let* result := saveWavFile None type in
     ret (content (result_message result))) w = (Throw e, w') /\
    disk w' = disk w.
Proof.
  intros Hgen. unfold bind. destruct (Hgen w) as [Hdisk _].
  destruct (generate w) as [[a | e] w1]; simpl in Hdisk.
  - destruct (saveWavFile_without_path type w1) as [e He]. rewrite He.
    exists e, w1. split; [reflexivity | exact Hdisk].
  - exists e, w1. split; [reflexivity | exact Hdisk].
Qed.

(** X11: a generating tool called without [filepath] always answers with an
    error response and leaves the disk untouched (the sound may have been
    generated all the same). *)
Theorem generating_tools_without_filepath (name : string) (a : Args) (w : World) :
  In name ["generate_sound_effect"; "create_custom_sound"; "randomize_sound"] ->
  arg_filepath a = None ->
  (exists resp, fst (CallTool name (Some a) w) = Return resp /\ isError resp = true) /\
  disk (snd (CallTool name (Some a) w)) = disk w.
Proof.
  intros Hname Hpath.
  assert (Hswitch : exists e w', tool_switch name (Some a) w = (Throw e, w') /\
                                 disk w' = disk w).
  { simpl in Hname. destruct Hname as [<- | [<- | [<- | []]]].
    - rewrite tool_switch_generate_sound_effect, Hpath.
      apply tool_without_filepath, generateSoundEffect_keeps_disk.
    - rewrite tool_switch_create_custom_sound, Hpath.
      apply tool_without_filepath, createCustomSound_keeps_disk.
    - rewrite tool_switch_randomize_sound, Hpath.
      apply tool_without_filepath, randomizeSound_keeps_disk. }
  destruct Hswitch as (e & w' & Hswitch & Hdisk).
  unfold CallTool, try_catch. rewrite Hswitch. simpl.
  split; [eexists; split; reflexivity | exact Hdisk].
Qed.

(** X12: [create_custom_sound] called without [parameters] fails in
    [Object.entries], after [reset_params] has run: the answer is the error
    response of that [TypeError], and the world is the one [reset_params]
    left, with the error logged. *)
Theorem create_custom_sound_without_parameters (a : Args) (w w0 : World) :
  arg_parameters a = None ->
  call reset_params w = (Return tt, w0) ->
  CallTool "create_custom_sound" (Some a) w =
    (Return (mkResponse ("Error: " ++ message (TypeError "Object.entries") ++ nl ++
                         "Stack: " ++ stack (TypeError "Object.entries")) true),
     mkWorld (Math_random w0) (bfxr w0) (disk w0)
       (TypeError "Object.entries" :: console w0)).
Proof.
  intros Hparams Hreset. unfold CallTool, try_catch.
  rewrite tool_switch_create_custom_sound, Hparams.
  unfold createCustomSound, Object_entries.
  assert (Hthrow : (let* _ := call reset_params in
                    let* entries := throw (TypeError "Object.entries") in
                    let* _ := for_of entries (fun key value => call (set_param key value)) in
                    let* _ := call generate_sound in
                    gets (fun w => sound (bfxr w))) w =
                   (Throw (TypeError "Object.entries") : Res (option Snd), w0)).
  { rewrite (bind_Return _ _ tt _ _ Hreset). reflexivity. }
  rewrite (bind_Throw _ _ _ _ _ Hthrow). reflexivity.
Qed.

(** ** The tools and the dispatcher *)

(** X13: a tool name that the ListTools handler does not announce is
    answered with the error response of ["Unknown tool: <name>"], whatever
    the arguments, and nothing but the console changes. *)
Theorem CallTool_unlisted_tool (name : string) (args : option Args) (w : World) :
  ~ In name (map tool_name ListTools) ->
  CallTool name args w =
    (Return (mkResponse ("Error: " ++ ("Unknown tool: " ++ name) ++ nl ++
                         "Stack: " ++ Error_stack ("Unknown tool: " ++ name)) true),
     mkWorld (Math_random w) (bfxr w) (disk w)
       (new_Error ("Unknown tool: " ++ name) :: console w)).
Proof.
  intros Hnot.
  assert (Hswitch : tool_switch name args w =
                    (Throw (new_Error ("Unknown tool: " ++ name)), w)).
  { unfold tool_switch.
    repeat match goal with
           | |- context [decide (name = ?s)] =>
               destruct (decide (name = s)) as [Heq | _];
               [exfalso; apply Hnot; rewrite Heq; simpl; tauto |]
           end.
    reflexivity. }
  unfold CallTool, try_catch. rewrite Hswitch. reflexivity.
Qed.

(** X14: an announced tool whose schema has no required property never
    looks at its arguments; every other announced tool, called without an
    argument bag, throws a [TypeError] before it does anything. *)
Theorem tool_switch_undefined_arguments (t : Tool) (w : World) :
  In t ListTools ->
  match tool_required t with
  | [] => forall args, tool_switch (tool_name t) args w = tool_switch (tool_name t) None w
  | _ :: _ => tool_switch (tool_name t) None w = (Throw (TypeError "destructure args"), w)
  end.
Proof.
  intros Hin. simpl in Hin.
  destruct Hin as [<- | [<- | [<- | [<- | [<- | [<- | []]]]]]]; simpl tool_required;
    try reflexivity; intros args; reflexivity.
Qed.

(** X15: the presets that [getPresets] lists are the values of the [type]
    enum of [generate_sound_effect], in the same order, and for each of
    them the [switch] of [generateSoundEffect] runs the engine routine of
    that preset. *)
Theorem presets_enum_switch_agree :
  map name getPresets = type_enum /\
  Forall2 (fun (type : string) (routine : Method E) =>
             forall w : World, preset_switch (Some type) w = call routine w)
    type_enum
    [ generate_pickup_coin; generate_laser_shoot; generate_explosion;
      generate_powerup; generate_hit_hurt; generate_jump; generate_blip_select ].
Proof.
  split; [reflexivity |].
  unfold type_enum. repeat constructor.
Qed.

(** ** The text of [get_parameters] *)

(** X16: [get_parameters] needs exactly the four parameters it formats with
    [toFixed]: with [frequency_start], [attackTime], [sustainTime] and
    [decayTime] present the text is produced, whatever else is missing, and
    with one of them missing the call throws the [TypeError] of
    [toFixed]. *)
Theorem get_parameters_text_needs_envelope (p : gmap string Q) (w : World) :
  match p !! "frequency_start", p !! "attackTime", p !! "sustainTime", p !! "decayTime" with
  | Some f, Some a, Some s, Some d =>
      exists rest,
        fst (get_parameters_text p w) =
        Return ("Current sound parameters:" ++ nl ++
                "Wave: " ++ tmpl_num (p !! "waveType") ++
                " | Freq: " ++ toFixed2 f ++ nl ++
                "Envelope: A" ++ toFixed2 a ++ " S" ++ toFixed2 s ++
                " D" ++ toFixed2 d ++ nl ++ rest)
  | _, _, _, _ => fst (get_parameters_text p w) = Throw (TypeError "toFixed")
  end.
Proof.
  unfold get_parameters_text, toFixed, bind, ret, throw.
  destruct (p !! "frequency_start"); [| reflexivity].
  destruct (p !! "attackTime"); [| reflexivity].
  destruct (p !! "sustainTime"); [| reflexivity].
  destruct (p !! "decayTime"); [| reflexivity].
  eexists. reflexivity.
Qed.

End MoreProperties.

(** ** The further properties on the engine of the specification *)

(** X9 on the Ready world: the sound is saved to /tmp/a.wav, and the
    message reports the 8 bytes written. *)
Lemma saveWavFile_reports_witness :
  exists (s : gmap string Q) (b64 : string),
    sound (bfxr world_ready) = Some s /\
    split_comma_1 "data:audio/wav;base64,UklGRg==" = Some b64 /\
    TestHost.files (disk (snd (saveWavFile (Some "/tmp/a.wav") "exported" world_ready))) =
      [("/tmp/a.wav", list_byte_of_string b64)] /\
    includes "File size: 8 bytes"
      (result_message
         (mkSaveResult "/tmp/a.wav"
            ("Generated exported sound!" ++ nl ++
             "Saved to: /tmp/a.wav" ++ nl ++
             "File size: 8 bytes"))) = true.
Proof.
  assert (Hsave :
    saveWavFile (Some "/tmp/a.wav") "exported" world_ready =
    (Return (mkSaveResult "/tmp/a.wav"
               ("Generated exported sound!" ++ nl ++
                "Saved to: /tmp/a.wav" ++ nl ++
                "File size: 8 bytes")),
     snd (saveWavFile (Some "/tmp/a.wav") "exported" world_ready)))
    by (vm_compute; reflexivity).
  destruct (saveWavFile_reports_what_it_writes _ _ _ _ _ Hsave)
    as (s & uri & b64 & path & Htarget & Hsound & Huri & Hsplit & _ & _ & Hwrite).
  exists s, b64.
  assert (Hb64 : b64 = "UklGRg==").
  { vm_compute in Hsound. injection Hsound as <-.
    vm_compute in Huri. injection Huri as <-.
    vm_compute in Hsplit. injection Hsplit as <-. reflexivity. }
  split; [exact Hsound |]. subst b64.
  split; [reflexivity |]. split; vm_compute; reflexivity.
Defined.

(** X10 at start-up: nothing to save. *)
Lemma saveWavFile_fails_witness :
  saveWavFile (Some "/tmp/a.wav") "exported" world0 =
    (Throw (new_Error "No sound generated yet"), world0).
Proof.
  assert (Hempty : sound (bfxr world0) = None) by (vm_compute; reflexivity).
  destruct (saveWavFile_fails_before_writing (Some "/tmp/a.wav") "exported" world0
              (or_introl Hempty)) as (Hworld & _ & Herror).
  specialize (Herror Hempty).
  destruct (saveWavFile (Some "/tmp/a.wav") "exported" world0) as [r w'].
  simpl in Hworld, Herror. subst. reflexivity.
Defined.

(** X11 at start-up: [randomize_sound] with a seed and no [filepath]. *)
Lemma generating_tools_without_filepath_witness :
  (exists resp,
     fst (CallTool "randomize_sound" (Some (mkArgs None None None (Some 7%Z) None)) world0) =
       Return resp /\ isError resp = true) /\
  disk (snd (CallTool "randomize_sound" (Some (mkArgs None None None (Some 7%Z) None)) world0)) =
    disk world0.
Proof.
  apply (generating_tools_without_filepath "randomize_sound"
           (mkArgs None None None (Some 7%Z) None) world0).
  - simpl. tauto.
  - reflexivity.
Defined.

(** X12 on the Ready world: [create_custom_sound] with a [filepath] only. *)
Lemma create_custom_sound_without_parameters_witness :
  fst (CallTool "create_custom_sound"
         (Some (mkArgs None None None None (Some "/tmp/a.wav"))) world_ready) =
    Return (mkResponse ("Error: TypeError in Object.entries" ++ nl ++
                        "Stack: TypeError in Object.entries") true) /\
  params (bfxr (snd (CallTool "create_custom_sound"
                       (Some (mkArgs None None None None (Some "/tmp/a.wav")))
                       world_ready))) = SpecEngine.baseline.
Proof.
  rewrite (create_custom_sound_without_parameters
             (mkArgs None None None None (Some "/tmp/a.wav")) world_ready
             (snd (call reset_params world_ready)) eq_refl);
    [| vm_compute; reflexivity].
  split; vm_compute; reflexivity.
Defined.

(** X13 at start-up: a tool that is not announced. *)
Lemma CallTool_unlisted_tool_witness :
  fst (CallTool "play_sound" None world0) =
    Return (mkResponse ("Error: Unknown tool: play_sound" ++ nl ++
                        "Stack: Error: Unknown tool: play_sound" ++ nl ++
                        "    at BfxrWrapper") true).
Proof.
  rewrite (CallTool_unlisted_tool "play_sound" None world0).
  - reflexivity.
  - simpl. intuition discriminate.
Defined.

(** X14 at start-up: [export_wav] without an argument bag. *)
Lemma tool_switch_undefined_arguments_witness :
  tool_switch "export_wav" None world0 = (Throw (TypeError "destructure args"), world0).
Proof.
  apply (tool_switch_undefined_arguments (mkTool "export_wav" ["filepath"] ["filepath"]) world0).
  simpl. tauto.
Defined.

(** X17 at start-up: [randomize_sound] with the seed 5. *)
Lemma randomize_sound_message_witness :
  exact_seed 5 /\
  exists rest,
    text (mkResponse ("Generated random (seed: 5) sound!" ++ nl ++
                      "Saved to: /tmp/a.wav" ++ nl ++
                      "File size: 8 bytes") false) =
    "Generated random" ++ " (seed: 5)" ++ " sound!" ++ rest.
Proof.
  assert (Hexact : exact_seed 5) by (unfold exact_seed; vm_compute; discriminate).
  split; [exact Hexact |].
  apply (randomize_sound_message
           (mkArgs None None None (Some 5%Z) (Some "/tmp/a.wav")) world0
           (snd (tool_switch "randomize_sound"
                   (Some (mkArgs None None None (Some 5%Z) (Some "/tmp/a.wav"))) world0))).
  - exact Hexact.
  - vm_compute. reflexivity.
Defined.
